(** * Real-time session coordination of the telehealth backend

    A shallow embedding of the chat model and controller, the video-session
    model and controller, and the Socket.IO handlers of the server entry
    point, followed by the properties of the coordination core.

    Conventions.
    - Mongo ObjectIds, room ids and socket ids are strings; dates are
      milliseconds since the epoch ([Z]).
    - A JavaScript value that may be [undefined] is an [option]; a string
      field that a schema hook tests with [!this.field] is a plain string
      whose unset state is the empty string.
    - The persisted collections are the state; a document loaded by a
      handler is a local value and reaches the state only through [save].
    - [pre('save')] hooks are taken to run before the document is checked
      and written, as the schemas intend. *)

From Stdlib Require Import ZArith String Ascii List Bool Lia.
From stdpp Require Import base option list gmap strings sorting pretty.

Local Open Scope string_scope.
Local Open Scope Z_scope.

(** ** JavaScript helpers *)

Module Js.

(** Truthiness of a string ([!s] is [negb (truthy s)]). *)
Definition truthy (s : string) : bool :=
  match s with
  | EmptyString => false
  | String _ _ => true
  end.

(** Truthiness of a possibly undefined string. *)
Definition truthy_opt (s : option string) : bool :=
  match s with
  | None => false
  | Some s => truthy s
  end.

(** [Array.prototype.sort()] with the default comparator on an array of
    strings: stable, ascending in code-unit order. *)
Fixpoint sort_insert (x : string) (l : list string) : list string :=
  match l with
  | [] => [x]
  | y :: l' => if String.leb x y then x :: y :: l'
               else y :: sort_insert x l'
  end.

Fixpoint sort (l : list string) : list string :=
  match l with
  | [] => []
  | x :: l' => sort_insert x (sort l')
  end.

(** [Array.prototype.join(sep)]. *)
Definition join (sep : string) (l : list string) : string :=
  String.concat sep l.

(** [Array.prototype.find] and [findIndex]. *)
Fixpoint find {A} (p : A → bool) (l : list A) : option A :=
  match l with
  | [] => None
  | x :: l' => if p x then Some x else find p l'
  end.

Fixpoint findIndex {A} (p : A → bool) (l : list A) : option nat :=
  match l with
  | [] => None
  | x :: l' => if p x then Some 0%nat else S <$> findIndex p l'
  end.

End Js.

(** ** Persistent models *)

Module User.
Record t := mk { role : string }.
End User.

Module Appointment.
Record t := mk {
  patientId : string;
  therapistId : string;
  sessionType : string;
  status : string
}.

Definition with_status (s : string) (a : t) : t :=
  mk (patientId a) (therapistId a) (sessionType a) s.
End Appointment.

Module Participant.
Record t := mk {
  userId : string;
  joinedAt : option Z;
  leftAt : option Z;
  connectionQuality : option string
}.

Definition with_joinedAt (d : Z) (p : t) : t :=
  mk (userId p) (Some d) (leftAt p) (connectionQuality p).
End Participant.

Module VideoSession.
(** [sessionNotes.technicalIssues] and [recording] are never read or
    written by the controllers and are left out. *)
Record t := mk {
  _id : string;
  patientId : string;
  therapistId : string;
  appointmentId : string;
  roomId : string;
  status : string;
  startTime : option Z;
  endTime : option Z;
  duration : option Z;
  participants : list Participant.t;
  therapistNotes : option string;
  patientFeedback : option string
}.

Definition statusEnum : list string :=
  ["waiting"; "active"; "ended"; "cancelled"].

Definition with_roomId (r : string) (v : t) : t :=
  mk (_id v) (patientId v) (therapistId v) (appointmentId v) r (status v)
     (startTime v) (endTime v) (duration v) (participants v)
     (therapistNotes v) (patientFeedback v).
Definition with_status (s : string) (v : t) : t :=
  mk (_id v) (patientId v) (therapistId v) (appointmentId v) (roomId v) s
     (startTime v) (endTime v) (duration v) (participants v)
     (therapistNotes v) (patientFeedback v).
Definition with_startTime (d : Z) (v : t) : t :=
  mk (_id v) (patientId v) (therapistId v) (appointmentId v) (roomId v)
     (status v) (Some d) (endTime v) (duration v) (participants v)
     (therapistNotes v) (patientFeedback v).
Definition with_endTime (d : Z) (v : t) : t :=
  mk (_id v) (patientId v) (therapistId v) (appointmentId v) (roomId v)
     (status v) (startTime v) (Some d) (duration v) (participants v)
     (therapistNotes v) (patientFeedback v).
Definition with_duration (d : Z) (v : t) : t :=
  mk (_id v) (patientId v) (therapistId v) (appointmentId v) (roomId v)
     (status v) (startTime v) (endTime v) (Some d) (participants v)
     (therapistNotes v) (patientFeedback v).
Definition with_participants (ps : list Participant.t) (v : t) : t :=
  mk (_id v) (patientId v) (therapistId v) (appointmentId v) (roomId v)
     (status v) (startTime v) (endTime v) (duration v) ps
     (therapistNotes v) (patientFeedback v).
Definition with_therapistNotes (n : string) (v : t) : t :=
  mk (_id v) (patientId v) (therapistId v) (appointmentId v) (roomId v)
     (status v) (startTime v) (endTime v) (duration v) (participants v)
     (Some n) (patientFeedback v).
Definition with_patientFeedback (n : string) (v : t) : t :=
  mk (_id v) (patientId v) (therapistId v) (appointmentId v) (roomId v)
     (status v) (startTime v) (endTime v) (duration v) (participants v)
     (therapistNotes v) (Some n).

(** [new VideoSession({patientId, therapistId, appointmentId})]: schema
    defaults, no room id yet. *)
Definition new (oid patient therapist appointment : string) : t :=
  mk oid patient therapist appointment "" "waiting" None None None []
     None None.

(** The [pre('save')] hook: a room id is generated only when none is
    set, from the clock and a random suffix. *)
Definition preSave (now : Z) (random : string) (v : t) : t :=
  if negb (Js.truthy (roomId v))
  then with_roomId ("room_" +:+ pretty now +:+ "_" +:+ random) v
  else v.
End VideoSession.

Module Chat.
Record t := mk {
  _id : string;
  senderId : string;
  receiverId : string;
  message : string;
  messageType : string;
  isRead : bool;
  readAt : option Z;
  editedAt : option Z;
  isDeleted : bool;
  conversationId : string;
  createdAt : Z
}.

Definition messageTypeEnum : list string :=
  ["text"; "image"; "file"; "system"].

Definition with_conversationId (c : string) (m : t) : t :=
  mk (_id m) (senderId m) (receiverId m) (message m) (messageType m)
     (isRead m) (readAt m) (editedAt m) (isDeleted m) c (createdAt m).
Definition with_read (d : Z) (m : t) : t :=
  mk (_id m) (senderId m) (receiverId m) (message m) (messageType m)
     true (Some d) (editedAt m) (isDeleted m) (conversationId m)
     (createdAt m).

(** [new Chat({senderId, receiverId, message, messageType})]. *)
Definition new (oid sender receiver body type : string) (now : Z) : t :=
  mk oid sender receiver body type false None None false "" now.

(** The conversation key of the [pre('save')] hook, also computed by
    [getConversation]: [[a, b].sort().join('_')]. *)
Definition conversationIdOf (a b : string) : string :=
  Js.join "_" (Js.sort [a; b]).

(** The [pre('save')] hook. *)
Definition preSave (m : t) : t :=
  if negb (Js.truthy (conversationId m))
  then with_conversationId (conversationIdOf (senderId m) (receiverId m)) m
  else m.

Global Instance chat_eq_dec : EqDecision Chat.t.
Proof. solve_decision. Defined.
End Chat.

(** ** The database *)

Record DB := mkDB {
  users : gmap string User.t;
  appointments : gmap string Appointment.t;
  videoSessions : list VideoSession.t;
  chats : list Chat.t
}.

Definition set_appointments (a : gmap string Appointment.t) (db : DB) : DB :=
  mkDB (users db) a (videoSessions db) (chats db).
Definition set_videoSessions (v : list VideoSession.t) (db : DB) : DB :=
  mkDB (users db) (appointments db) v (chats db).
Definition set_chats (c : list Chat.t) (db : DB) : DB :=
  mkDB (users db) (appointments db) (videoSessions db) c.

(** What a request reads from outside the database: the clock, the random
    suffix of a room id, the ObjectId given to a new document, and whether
    the appointment store rejects a write. *)
Record Env := mkEnv {
  now : Z;
  random : string;
  objectId : string;
  appointmentWriteFails : bool
}.

(** The authenticated caller attached by the [auth] middleware. *)
Record ReqUser := mkReqUser { id : string; role : string }.

(** ** Responses and the handler monad *)

Inductive Payload :=
| PCreated (roomId sessionId status : string) (participants : nat)
| PSession (v : VideoSession.t)
| PJoined (roomId status : string) (participants : nat)
| PChat (m : Chat.t)
| PConversation (msgs : list Chat.t) (page limit : Z) (hasMore : bool).

Record Response := mkResponse {
  code : nat;
  message : string;
  data : option Payload
}.

(** A handler body either goes on with a value, has already answered
    ([return res.status(..).json(..)]), or has thrown into its [catch]. *)
Inductive Stop := Replied (r : Response) | Thrown.

Definition Handler (A : Type) : Type := DB → (A + Stop) * DB.

Global Instance handler_ret : MRet Handler := λ A a db, (inl a, db).
Global Instance handler_bind : MBind Handler := λ A B k m db,
  match m db with
  | (inl a, db') => k a db'
  | (inr s, db') => (inr s, db')
  end.
Definition reply {A} (r : Response) : Handler A := λ db, (inr (Replied r), db).
Definition throw {A} : Handler A := λ db, (inr Thrown, db).
Definition query {A} (f : DB → A) : Handler A := λ db, (inl (f db), db).
Definition update (f : DB → DB) : Handler unit := λ db, (inl tt, f db).
Definition when (b : bool) (m : Handler unit) : Handler unit :=
  if b then m else mret tt.

Definition status (c : nat) (msg : string) : Response := mkResponse c msg None.
Definition json (msg : string) (d : Payload) : Response :=
  mkResponse 200 msg (Some d).

(** [try { body } catch (error) { res.status(500).json(..) }]. *)
Definition run (body : Handler Response) (db : DB) : Response * DB :=
  match body db with
  | (inl r, db') => (r, db')
  | (inr (Replied r), db') => (r, db')
  | (inr Thrown, db') => (status 500 "Server error", db')
  end.

(** ** Video controller *)

Module VideoController.

(** [VideoSession.findOne({ appointmentId })]. *)
Definition findOneByAppointment (aid : string) (db : DB)
  : option VideoSession.t :=
  Js.find (λ v, String.eqb (VideoSession.appointmentId v) aid)
          (videoSessions db).

(** [VideoSession.findOne({ roomId })]. *)
Definition findOneByRoom (room : string) (db : DB) : option VideoSession.t :=
  Js.find (λ v, String.eqb (VideoSession.roomId v) room) (videoSessions db).

Definition validStatus (s : string) : bool :=
  bool_decide (s ∈ VideoSession.statusEnum).

(** The [_id] or the room id of [v] is already in use. *)
Definition taken (v : VideoSession.t) (db : DB) : bool :=
  existsb (λ w, String.eqb (VideoSession._id w) (VideoSession._id v)
                || String.eqb (VideoSession.roomId w) (VideoSession.roomId v))
          (videoSessions db).

(** [save()] of a freshly constructed session: the hook assigns the room
    id, the document is validated, and the insert is refused when the
    [_id] or the unique [roomId] is already taken. *)
Definition saveNew (e : Env) (v : VideoSession.t) : Handler VideoSession.t :=
  let v := VideoSession.preSave (now e) (random e) v in
  inUse ← query (taken v);
  if negb (validStatus (VideoSession.status v)) || inUse then throw
  else update (λ db, set_videoSessions (videoSessions db ++ [v]) db);; mret v.

(** The stored session with a given [_id]. *)
Definition findById (oid : string) (db : DB) : option VideoSession.t :=
  Js.find (λ w, String.eqb (VideoSession._id w) oid) (videoSessions db).

(** Overwriting the stored document that has the [_id] of [v]. *)
Definition replaceById (v : VideoSession.t) (l : list VideoSession.t)
  : list VideoSession.t :=
  (λ w, if String.eqb (VideoSession._id w) (VideoSession._id v)
        then v else w) <$> l.

(** [save()] of a session that was loaded as [loaded] and now reads [v]:
    validators run on the paths whose value changed since loading
    ([status] is the only one with a validator), then the stored document
    with the same [_id] is overwritten. *)
Definition save (e : Env) (loaded v : VideoSession.t)
  : Handler VideoSession.t :=
  let v := VideoSession.preSave (now e) (random e) v in
  stored ← query (findById (VideoSession._id v));
  if negb (bool_decide (is_Some stored)) then throw else
  if negb (String.eqb (VideoSession.status loaded) (VideoSession.status v))
     && negb (validStatus (VideoSession.status v))
  then throw
  else
    update (λ db, set_videoSessions (replaceById v (videoSessions db)) db);;
    mret v.

(** The appointment collection after [{ status }] is written to the
    appointment with that id, if there is one. *)
Definition withAppointmentStatus (aid st : string) (db : DB) : DB :=
  set_appointments (alter (Appointment.with_status st) aid (appointments db))
                   db.

(** [Appointment.findByIdAndUpdate(id, { status })]: rejects when the
    appointment store does, otherwise performs the write. *)
Definition findByIdAndUpdate (e : Env) (aid st : string) : Handler unit :=
  if appointmentWriteFails e then throw
  else update (withAppointmentStatus aid st).

Definition isParty (patient therapist : string) (user : ReqUser) : bool :=
  let isPatient := String.eqb patient (id user) in
  let isTherapist := String.eqb therapist (id user) in
  negb (negb isPatient && negb isTherapist).

Definition hasUserId (uid : string) (p : Participant.t) : bool :=
  String.eqb (Participant.userId p) uid.

(** The answer of a successful create-or-join. *)
Definition created (v : VideoSession.t) : Response :=
  json "Video session created/joined successfully"
    (PCreated (VideoSession.roomId v) (VideoSession._id v)
              (VideoSession.status v)
              (length (VideoSession.participants v))).

(** A participant entry as [push({ userId, joinedAt: new Date() })]
    builds it. *)
Definition joining (e : Env) (user : ReqUser) : Participant.t :=
  Participant.mk (id user) (Some (now e)) None None.

(** [POST /api/video/create]. *)
Definition createVideoSession (e : Env) (user : ReqUser)
    (appointmentId : option string) : Handler Response :=
  match appointmentId with
  | None => reply (status 400 "Appointment ID is required")
  | Some aid =>
    if negb (Js.truthy aid)
    then reply (status 400 "Appointment ID is required") else
    found ← query (λ db, appointments db !! aid);
    match found with
    | None => reply (status 404 "Appointment not found")
    | Some appointment =>
      (* populate('patientId') / populate('therapistId'): a dangling
         reference is null and [._id] on it throws *)
      populated ← query (λ db,
        bool_decide (is_Some (users db !! Appointment.patientId appointment))
        && bool_decide (is_Some (users db !! Appointment.therapistId appointment)));
      if negb populated then throw else
      if negb (isParty (Appointment.patientId appointment)
                       (Appointment.therapistId appointment) user)
      then reply (status 403 "Access denied") else
      if negb (String.eqb (Appointment.status appointment) "confirmed")
      then reply (status 400
             "Appointment must be confirmed to start video session") else
      existing ← query (findOneByAppointment aid);
      videoSession ← match existing with
        | Some v => mret v
        | None => saveNew e (VideoSession.new (objectId e)
                    (Appointment.patientId appointment)
                    (Appointment.therapistId appointment) aid)
        end;
      let existingParticipant :=
        Js.find (hasUserId (id user)) (VideoSession.participants videoSession) in
      videoSession ← match existingParticipant with
        | Some _ => mret videoSession
        | None =>
            save e videoSession
              (VideoSession.with_participants
                 (VideoSession.participants videoSession ++ [joining e user])
                 videoSession)
        end;
      mret (created videoSession)
    end
  end.

(** The guards of [createVideoSession] all pass for appointment [a]. *)
Definition admitted (user : ReqUser) (aid : string) (db : DB)
    (a : Appointment.t) : Prop :=
  appointments db !! aid = Some a
  ∧ is_Some (users db !! Appointment.patientId a)
  ∧ is_Some (users db !! Appointment.therapistId a)
  ∧ isParty (Appointment.patientId a) (Appointment.therapistId a) user = true
  ∧ Appointment.status a = "confirmed".

(** The session a first create stores, before the caller is added. *)
Definition fresh (e : Env) (aid : string) (a : Appointment.t)
  : VideoSession.t :=
  VideoSession.preSave (now e) (random e)
    (VideoSession.new (objectId e) (Appointment.patientId a)
                      (Appointment.therapistId a) aid).

(** The caller added to the participants of [v], as saved. *)
Definition withCaller (e : Env) (user : ReqUser) (v : VideoSession.t)
  : VideoSession.t :=
  VideoSession.preSave (now e) (random e)
    (VideoSession.with_participants
       (VideoSession.participants v ++ [joining e user]) v).

(** Every stored session has its room id. *)
Definition roomsAssigned (db : DB) : Prop :=
  Forall (λ v, Js.truthy (VideoSession.roomId v) = true) (videoSessions db).

(** No stored session lists a user twice. *)
Definition uniqueParticipants (db : DB) : Prop :=
  Forall (λ v, NoDup (Participant.userId <$> VideoSession.participants v))
         (videoSessions db).

(** The assignments of a status update up to the appointment write:
    [status], [startTime] on a first activation, [endTime] and [duration]
    on ending. *)
Definition applyStatus (e : Env) (newStatus : string) (v : VideoSession.t)
  : VideoSession.t :=
  let v := VideoSession.with_status newStatus v in
  let v :=
    if String.eqb newStatus "active"
       && negb (bool_decide (is_Some (VideoSession.startTime v)))
    then VideoSession.with_startTime (now e) v
    else v in
  if String.eqb newStatus "ended" then
    let v := VideoSession.with_endTime (now e) v in
    match VideoSession.startTime v with
    | Some start => VideoSession.with_duration ((now e - start) / 1000) v
    | None => v
    end
  else v.

(** The notes assignment: the therapist's notes or, for any other role,
    the patient's feedback. *)
Definition applyNotes (user : ReqUser) (sessionNotes : option string)
    (v : VideoSession.t) : VideoSession.t :=
  if Js.truthy_opt sessionNotes then
    if String.eqb (role user) "therapist"
    then VideoSession.with_therapistNotes (default "" sessionNotes) v
    else VideoSession.with_patientFeedback (default "" sessionNotes) v
  else v.

(** The document a status update writes: what [save] stores after the assignments. *)
Definition updated (e : Env) (user : ReqUser) (newStatus : string)
    (notes : option string) (v : VideoSession.t) : VideoSession.t :=
  VideoSession.preSave (now e) (random e)
    (applyNotes user notes (applyStatus e newStatus v)).

(** [PUT /api/video/session/:roomId/status]. *)
Definition updateSessionStatus (e : Env) (user : ReqUser)
    (roomId newStatus : string) (sessionNotes : option string)
  : Handler Response :=
  found ← query (findOneByRoom roomId);
  match found with
  | None => reply (status 404 "Video session not found")
  | Some loaded =>
    if negb (isParty (VideoSession.patientId loaded)
                     (VideoSession.therapistId loaded) user)
    then reply (status 403 "Access denied") else
    let videoSession := applyStatus e newStatus loaded in
    (if String.eqb newStatus "ended"
     then findByIdAndUpdate e (VideoSession.appointmentId videoSession)
                            "completed"
     else mret tt);;
    let videoSession := applyNotes user sessionNotes videoSession in
    videoSession ← save e loaded videoSession;
    mret (json "Session status updated successfully" (PSession videoSession))
  end.

(** The participant bookkeeping of a join: refresh [joinedAt] of the
    caller's entry, or append one. *)
Definition touchParticipant (e : Env) (user : ReqUser)
    (ps : list Participant.t) : list Participant.t :=
  match Js.findIndex (hasUserId (id user)) ps with
  | Some participantIndex =>
      alter (Participant.with_joinedAt (now e)) participantIndex ps
  | None => ps ++ [joining e user]
  end.

(** [POST /api/video/join/:roomId]. *)
Definition joinVideoSession (e : Env) (user : ReqUser) (roomId : string)
  : Handler Response :=
  found ← query (findOneByRoom roomId);
  match found with
  | None => reply (status 404 "Video session not found")
  | Some loaded =>
    if negb (isParty (VideoSession.patientId loaded)
                     (VideoSession.therapistId loaded) user)
    then reply (status 403 "Access denied") else
    let videoSession :=
      VideoSession.with_participants
        (touchParticipant e user (VideoSession.participants loaded)) loaded in
    videoSession ← save e loaded videoSession;
    mret (json "Joined video session successfully"
      (PJoined (VideoSession.roomId videoSession)
               (VideoSession.status videoSession)
               (length (VideoSession.participants videoSession))))
  end.

(** The session a join stores. *)
Definition joined (e : Env) (user : ReqUser) (v : VideoSession.t)
  : VideoSession.t :=
  VideoSession.preSave (now e) (random e)
    (VideoSession.with_participants
       (touchParticipant e user (VideoSession.participants v)) v).

End VideoController.

(** ** Chat controller *)

Module ChatController.

(** [Appointment.find({ $or: [...] })] is non-empty. *)
Definition haveAppointments (u1 u2 : string) (db : DB) : bool :=
  existsb (λ a,
      (String.eqb (Appointment.patientId a) u1
         && String.eqb (Appointment.therapistId a) u2)
      || (String.eqb (Appointment.patientId a) u2
            && String.eqb (Appointment.therapistId a) u1))
    (snd <$> map_to_list (appointments db)).

(** The helper at the end of the chat controller. *)
Definition checkTherapeuticRelationship (userId1 userId2 : string) (db : DB)
  : bool :=
  match users db !! userId1, users db !! userId2 with
  | Some user1, Some user2 =>
      if String.eqb (User.role user1) "admin"
         || String.eqb (User.role user2) "admin" then true
      else if (String.eqb (User.role user1) "patient"
                 && String.eqb (User.role user2) "therapist")
              || (String.eqb (User.role user1) "therapist"
                    && String.eqb (User.role user2) "patient")
      then haveAppointments userId1 userId2 db
      else false
  | _, _ => false
  end.

Definition validMessageType (s : string) : bool :=
  bool_decide (s ∈ Chat.messageTypeEnum).

(** [save()] of a freshly constructed message: the hook derives the
    conversation id, the document is validated and appended. *)
Definition saveNew (m : Chat.t) : Handler Chat.t :=
  let m := Chat.preSave m in
  taken ← query (λ db,
    existsb (λ w, String.eqb (Chat._id w) (Chat._id m)) (chats db));
  if negb (validMessageType (Chat.messageType m))
     || (1000 <? String.length (Chat.message m))%nat
     || taken
  then throw
  else update (λ db, set_chats (chats db ++ [m]) db);; mret m.

(** The filter of both [updateMany] calls. *)
Definition unreadFor (conversationId reader : string) (m : Chat.t) : bool :=
  String.eqb (Chat.conversationId m) conversationId
  && String.eqb (Chat.receiverId m) reader
  && negb (Chat.isRead m).

(** The update of both [updateMany] calls on one message. *)
Definition markOne (e : Env) (conversationId reader : string) (m : Chat.t)
  : Chat.t :=
  if unreadFor conversationId reader m then Chat.with_read (now e) m else m.

(** [Chat.updateMany({conversationId, receiverId, isRead: false},
                     {isRead: true, readAt: new Date()})]. *)
Definition markRead (e : Env) (conversationId reader : string)
  : Handler unit :=
  update (λ db, set_chats (markOne e conversationId reader <$> chats db) db).

(** The message a send stores. *)
Definition sent (e : Env) (user : ReqUser) (receiverId message : string)
    (messageType : option string) : Chat.t :=
  Chat.preSave (Chat.new (objectId e) (id user) receiverId message
                         (default "text" messageType) (now e)).

(** [POST /api/chat/send]. *)
Definition sendMessage (e : Env) (user : ReqUser)
    (receiverId message messageType : option string) : Handler Response :=
  let messageType := default "text" messageType in
  if negb (Js.truthy_opt receiverId) || negb (Js.truthy_opt message)
  then reply (status 400 "Please provide receiver ID and message") else
  let receiverId := default "" receiverId in
  let message := default "" message in
  if (1000 <? String.length message)%nat
  then reply (status 400 "Message too long (max 1000 characters)") else
  receiver ← query (λ db, users db !! receiverId);
  if negb (bool_decide (is_Some receiver))
  then reply (status 404 "Receiver not found") else
  isTherapeuticRelationship ←
    query (checkTherapeuticRelationship (id user) receiverId);
  if negb isTherapeuticRelationship && negb (String.eqb (role user) "admin")
  then reply (status 403
         "You can only message your assigned therapist/patients") else
  chat ← saveNew (Chat.new (objectId e) (id user) receiverId message
                          messageType (now e));
  mret (mkResponse 201 "Message sent successfully" (Some (PChat chat))).

(** The descending [createdAt] order of [.sort({ createdAt: -1 })]. *)
Definition newerFirst (a b : Chat.t) : Prop :=
  Chat.createdAt b ≤ Chat.createdAt a.

Global Instance newerFirst_dec a b : Decision (newerFirst a b).
Proof. unfold newerFirst. apply _. Defined.

Global Instance newerFirst_trans : Transitive newerFirst.
Proof. unfold newerFirst. intros a b c. lia. Defined.

Global Instance newerFirst_total : Total newerFirst.
Proof. unfold newerFirst. intros a b. lia. Defined.

(** The thread of a conversation, as stored. *)
Definition thread (conversationId : string) (db : DB) : list Chat.t :=
  List.filter (λ m, String.eqb (Chat.conversationId m) conversationId)
              (chats db).

(** [Chat.find({ conversationId }).sort(..).limit(limit).skip(skip)]: the
    page is cut after sorting; a zero limit means no limit, a negative one
    counts by its absolute value, and a negative skip is refused. *)
Definition page (conversationId : string) (skip limit : Z) (db : DB)
  : option (list Chat.t) :=
  let sorted := merge_sort newerFirst (thread conversationId db) in
  if skip <? 0 then None
  else
    let skipped := drop (Z.to_nat skip) sorted in
    Some (if limit =? 0 then skipped
          else take (Z.to_nat (Z.abs limit)) skipped).

(** [GET /api/chat/conversation/:userId], with [page] and [limit] already
    parsed ([1] and [50] when the query gives none). *)
Definition getConversation (e : Env) (user : ReqUser) (userId : string)
    (pageNo limit : Z) : Handler Response :=
  isTherapeuticRelationship ←
    query (checkTherapeuticRelationship (id user) userId);
  if negb isTherapeuticRelationship && negb (String.eqb (role user) "admin")
  then reply (status 403 "Access denied") else
  let conversationId := Chat.conversationIdOf (id user) userId in
  found ← query (page conversationId ((pageNo - 1) * limit) limit);
  match found with
  | None => throw
  | Some messages =>
      markRead e conversationId (id user);;
      mret (mkResponse 200 ""
        (Some (PConversation (reverse messages) pageNo limit
                 (Z.of_nat (length messages) =? limit))))
  end.

(** [PUT /api/chat/read/:conversationId]. *)
Definition markAsRead (e : Env) (user : ReqUser) (conversationId : string)
  : Handler Response :=
  markRead e conversationId (id user);;
  mret (status 200 "Messages marked as read").

End ChatController.

(** ** Socket.IO handlers of the server *)

Module Server.

(** Payloads the server emits. A field filled from [socket.userId] is
    [None] when the socket carries no identity ([undefined]). *)
Inductive Emit :=
| auth_error (msg : string)
| user_joined (userId : option string)
| user_left (userId : option string)
| video_signal (signal : string) (from : option string)
| new_message (senderId : option string) (message conversationId : string)
              (timestamp : Z)
| user_typing (userId : option string) (conversationId : string)
| user_stopped_typing (userId : option string) (conversationId : string).

(** The module-level [activeUsers] map, the rooms kept by Socket.IO (every
    connected socket sits in the room named by its own id), and the
    [userId] property of each socket object. *)
Record State := mk {
  activeUsers : gmap string string;
  rooms : gmap string (gset string);
  userIdOf : gmap string string
}.

Definition init : State := mk ∅ ∅ ∅.

Definition members (room : string) (st : State) : gset string :=
  default ∅ (rooms st !! room).

(** [socket.to(room).emit(..)]: every member of the room but the sender. *)
Definition toRoom (sid room : string) (ev : Emit) (st : State)
  : list (string * Emit) :=
  (λ target, (target, ev)) <$> elements (members room st ∖ {[sid]}).

(** [io.to(room).emit(..)]: every member of the room. *)
Definition ioTo (room : string) (ev : Emit) (st : State)
  : list (string * Emit) :=
  (λ target, (target, ev)) <$> elements (members room st).

Inductive Event :=
| connection
| authenticate (token : string)
| join_video_session (roomId : string)
| leave_video_session (roomId : string)
| video_signal_in (roomId signal : string)
| send_message (receiverId message conversationId : string)
| typing_start (receiverId conversationId : string)
| typing_stop (receiverId conversationId : string)
| disconnect.

(** One event of socket [sid]; [verify] is [jwt.verify] with the server
    secret, [None] when it throws; [clock] is [new Date()]. *)
Definition handle (verify : string → option string) (clock : Z)
    (sid : string) (ev : Event) (st : State)
  : State * list (string * Emit) :=
  match ev with
  | connection =>
      (mk (activeUsers st)
          (<[sid := {[sid]} ∪ members sid st]> (rooms st))
          (userIdOf st), [])
  | authenticate token =>
      match verify token with
      | Some userId =>
          (mk (<[userId := sid]> (activeUsers st)) (rooms st)
              (<[sid := userId]> (userIdOf st)), [])
      | None => (st, [(sid, auth_error "Invalid token")])
      end
  | join_video_session roomId =>
      let st' := mk (activeUsers st)
                    (<[roomId := {[sid]} ∪ members roomId st]> (rooms st))
                    (userIdOf st) in
      (st', toRoom sid roomId (user_joined (userIdOf st !! sid)) st')
  | leave_video_session roomId =>
      let st' := mk (activeUsers st)
                    (<[roomId := members roomId st ∖ {[sid]}]> (rooms st))
                    (userIdOf st) in
      (st', toRoom sid roomId (user_left (userIdOf st !! sid)) st')
  | video_signal_in roomId signal =>
      (st, toRoom sid roomId (video_signal signal (userIdOf st !! sid)) st)
  | send_message receiverId message conversationId =>
      match activeUsers st !! receiverId with
      | Some receiverSocketId =>
          (st, ioTo receiverSocketId
                 (new_message (userIdOf st !! sid) message conversationId
                              clock) st)
      | None => (st, [])
      end
  | typing_start receiverId conversationId =>
      match activeUsers st !! receiverId with
      | Some receiverSocketId =>
          (st, ioTo receiverSocketId
                 (user_typing (userIdOf st !! sid) conversationId) st)
      | None => (st, [])
      end
  | typing_stop receiverId conversationId =>
      match activeUsers st !! receiverId with
      | Some receiverSocketId =>
          (st, ioTo receiverSocketId
                 (user_stopped_typing (userIdOf st !! sid) conversationId) st)
      | None => (st, [])
      end
  | disconnect =>
      let left := (λ room : gset string, room ∖ {[sid]}) <$> rooms st in
      match userIdOf st !! sid with
      | Some userId =>
          if Js.truthy userId
          then (mk (delete userId (activeUsers st)) left
                   (delete sid (userIdOf st)), [])
          else (mk (activeUsers st) left (delete sid (userIdOf st)), [])
      | None => (mk (activeUsers st) left (userIdOf st), [])
      end
  end.

(** A trace of events, each tagged with the socket it arrives on. *)
Fixpoint handleAll (verify : string → option string) (clock : Z)
    (evs : list (string * Event)) (st : State) : State :=
  match evs with
  | [] => st
  | (sid, ev) :: evs' => handleAll verify clock evs' (fst (handle verify clock sid ev st))
  end.

(** The connections the relay handlers reach for an identity:
    [activeUsers.get(identity)]. *)
Definition lookup (identity : string) (st : State) : option string :=
  activeUsers st !! identity.

End Server.

(** ** Concrete scenarios

    One patient, one therapist and one admin; a confirmed video
    appointment and a confirmed phone appointment between the patient and
    the therapist. *)

Module Scenario.

Definition patient : string := "64b000000000000000000001".
Definition therapist : string := "64b000000000000000000002".
Definition admin : string := "64b000000000000000000003".
Definition stranger : string := "64b000000000000000000004".
Definition videoAppointment : string := "64b0000000000000000000a1".
Definition phoneAppointment : string := "64b0000000000000000000a2".
Definition pendingAppointment : string := "64b0000000000000000000a3".
Definition sessionOid : string := "64b0000000000000000000f1".

Definition asPatient : ReqUser := mkReqUser patient "patient".
Definition asTherapist : ReqUser := mkReqUser therapist "therapist".
Definition asAdmin : ReqUser := mkReqUser admin "admin".
Definition asStranger : ReqUser := mkReqUser stranger "patient".

Definition db0 : DB :=
  mkDB
    (<[patient := User.mk "patient"]>
       (<[therapist := User.mk "therapist"]>
          (<[admin := User.mk "admin"]>
             (<[stranger := User.mk "patient"]> ∅))))
    (<[videoAppointment := Appointment.mk patient therapist "video" "confirmed"]>
       (<[phoneAppointment := Appointment.mk patient therapist "phone" "confirmed"]>
          (<[pendingAppointment :=
               Appointment.mk patient therapist "video" "pending_confirmation"]>
             ∅)))
    [] [].

(** A request at clock [t]. *)
Definition at_ (t : Z) : Env := mkEnv t "k3x9q2m1z" sessionOid false.
Definition storeDown (t : Z) : Env := mkEnv t "k3x9q2m1z" sessionOid true.

Definition room1 : string := "room_1000_k3x9q2m1z".

(** The session of the video appointment in its successive states. *)
Definition session (st : string) (startTime endTime duration : option Z)
  : VideoSession.t :=
  VideoSession.mk sessionOid patient therapist videoAppointment room1 st
    startTime endTime duration
    [Participant.mk patient (Some 1000) None None] None None.

(** The database once the patient has opened the session at [1000]. *)
Definition db1 : DB :=
  set_videoSessions [session "waiting" None None None] db0.

(** ... once the therapist has started the call at [2000]. *)
Definition dbActive : DB :=
  set_videoSessions [session "active" (Some 2000) None None] db0.

(** ... once the patient has ended it at [1802000]. *)
Definition dbEnded : DB :=
  set_videoSessions
    [session "ended" (Some 2000) (Some 1802000) (Some 1800)]
    (VideoController.withAppointmentStatus videoAppointment "completed" db0).

(** The identity check of the socket layer: the token is the user id. *)
Definition verify (token : string) : option string :=
  if String.eqb token "bad" then None else Some token.

(** Two tabs of the patient, both authenticated. *)
Definition twoTabs : Server.State :=
  Server.handleAll verify 0
    [("s1", Server.connection); ("s1", Server.authenticate patient);
     ("s2", Server.connection); ("s2", Server.authenticate patient)]
    Server.init.

(** The therapist's socket sits in a room; a second socket connects and
    fails to authenticate. *)
Definition withGuest : Server.State :=
  Server.handleAll verify 0
    [("s1", Server.connection); ("s1", Server.authenticate therapist);
     ("s1", Server.join_video_session room1);
     ("g1", Server.connection); ("g1", Server.authenticate "bad")]
    Server.init.

End Scenario.

(** ** Video controller: reading a session *)

Module VideoReader.

(** [GET /api/video/session/:roomId]. The patient and the therapist are
    populated, so a dangling reference throws at [._id]; the populated
    appointment is not dereferenced. *)
Definition getVideoSession (user : ReqUser) (roomId : string)
  : Handler Response :=
  found ← query (VideoController.findOneByRoom roomId);
  match found with
  | None => reply (status 404 "Video session not found")
  | Some videoSession =>
    populated ← query (λ db,
      bool_decide (is_Some (users db !! VideoSession.patientId videoSession))
      && bool_decide
           (is_Some (users db !! VideoSession.therapistId videoSession)));
    if negb populated then throw else
    let isPatient :=
      String.eqb (VideoSession.patientId videoSession) (id user) in
    let isTherapist :=
      String.eqb (VideoSession.therapistId videoSession) (id user) in
    if negb isPatient && negb isTherapist
       && negb (String.eqb (role user) "admin")
    then reply (status 403 "Access denied")
    else mret (mkResponse 200 "" (Some (PSession videoSession)))
  end.

End VideoReader.

(** ** Appointment controller: status updates *)

Module AppointmentController.

Definition statusEnum : list string :=
  ["pending_confirmation"; "confirmed"; "completed"; "cancelled"; "no_show"].

Definition cancelledByEnum : list string := ["patient"; "therapist"; "admin"].

(** A handler whose 200 answer carries a value of type [A]. *)
Definition answer {A} (body : Handler A) (db : DB) : (A + Response) * DB :=
  match body db with
  | (inl a, db') => (inl a, db')
  | (inr (Replied r), db') => (inr r, db')
  | (inr Thrown, db') => (inr (status 500 "Server error"), db')
  end.

(** The permission test of the status update: the patient, the therapist
    or any admin. *)
Definition mayUpdate (a : Appointment.t) (user : ReqUser) : bool :=
  let isPatient := String.eqb (Appointment.patientId a) (id user) in
  let isTherapist := String.eqb (Appointment.therapistId a) (id user) in
  let isAdmin := String.eqb (role user) "admin" in
  negb (negb isPatient && negb isTherapist && negb isAdmin).

(** [appointment.save()] rejects: the store refuses the write, the status
    changed to one outside the schema's list, or a cancel reason is given
    by a caller whose role [cancelledBy] does not admit. *)
Definition saveRejected (e : Env) (user : ReqUser)
    (loaded appointment : Appointment.t) (cancelReason : option string)
  : bool :=
  appointmentWriteFails e
  || (negb (String.eqb (Appointment.status loaded)
                       (Appointment.status appointment))
      && negb (bool_decide (Appointment.status appointment ∈ statusEnum)))
  || (Js.truthy_opt cancelReason
      && negb (bool_decide (role user ∈ cancelledByEnum))).

(** The appointment collection with the saved appointment. *)
Definition stored (appointmentId : string) (appointment : Appointment.t)
    (db : DB) : DB :=
  set_appointments (<[appointmentId := appointment]> (appointments db)) db.

(** [appointment.save()] of a loaded appointment. [cancelReason] and
    [cancelledBy] are written but never read back by the controllers; the
    model keeps only the validation of [cancelledBy], which is assigned the
    caller's role when a reason is given. *)
Definition save (e : Env) (user : ReqUser) (appointmentId : string)
    (loaded appointment : Appointment.t) (cancelReason : option string)
  : Handler unit :=
  if saveRejected e user loaded appointment cancelReason then throw
  else update (stored appointmentId appointment).

(** The session the confirmation of a video appointment stores. *)
Definition opened (e : Env) (appointmentId : string) (a : Appointment.t)
  : VideoSession.t :=
  VideoSession.preSave (now e) (random e)
    (VideoSession.new (objectId e) (Appointment.patientId a)
                      (Appointment.therapistId a) appointmentId).

(** [PUT /api/appointments/:id/status]; the value of a 200 answer is the
    appointment as saved. *)
Definition updateAppointmentStatus (e : Env) (user : ReqUser)
    (appointmentId newStatus : string) (cancelReason : option string)
  : Handler Appointment.t :=
  found ← query (λ db, appointments db !! appointmentId);
  match found with
  | None => reply (status 404 "Appointment not found")
  | Some loaded =>
    if negb (mayUpdate loaded user)
    then reply (status 403 "Access denied") else
    let appointment := Appointment.with_status newStatus loaded in
    save e user appointmentId loaded appointment cancelReason;;
    (if String.eqb newStatus "confirmed"
        && String.eqb (Appointment.sessionType appointment) "video"
     then
       existingVideoSession ←
         query (VideoController.findOneByAppointment appointmentId);
       match existingVideoSession with
       | Some _ => mret tt
       | None =>
           VideoController.saveNew e
             (VideoSession.new (objectId e)
                (Appointment.patientId appointment)
                (Appointment.therapistId appointment) appointmentId);;
           mret tt
       end
     else mret tt);;
    mret appointment
  end.

End AppointmentController.

(** ** Consistency of the stored sessions *)

Module Store.

(** The fields of a session that identify it and its parties. *)
Definition identity (v : VideoSession.t)
  : string * string * string * string * string :=
  (VideoSession._id v, VideoSession.roomId v, VideoSession.patientId v,
   VideoSession.therapistId v, VideoSession.appointmentId v).

(** Ids and room ids are unique, every session has its room id, and no
    appointment has two sessions. *)
Definition consistent (db : DB) : Prop :=
  NoDup (VideoSession._id <$> videoSessions db)
  ∧ NoDup (VideoSession.roomId <$> videoSessions db)
  ∧ NoDup (VideoSession.appointmentId <$> videoSessions db)
  ∧ VideoController.roomsAssigned db.

(** The messages of a conversation that its reader has not read. *)
Definition unread (conversationId reader : string) (db : DB) : list Chat.t :=
  List.filter (ChatController.unreadFor conversationId reader) (chats db).

End Store.

(** * Properties *)

(** ** Array helpers *)

Section JsFacts.
Context {A : Type} (p : A → bool).

Lemma find_Some (l : list A) (x : A) :
  Js.find p l = Some x → x ∈ l ∧ p x = true.
Proof.
  induction l as [|y l IH]; simpl; [done|].
  destruct (p y) eqn:Hy.
  - intros [= <-]. split; [left | done].
  - intros H. destruct (IH H). split; [by right | done].
Qed.

Lemma find_None (l : list A) :
  Js.find p l = None → ∀ x, x ∈ l → p x = false.
Proof.
  induction l as [|y l IH]; simpl; intros H x Hx.
  - by apply elem_of_nil in Hx.
  - destruct (p y) eqn:Hy; [done|].
    apply elem_of_cons in Hx as [-> | Hx]; auto.
Qed.



Lemma findIndex_Some (l : list A) (i : nat) :
  Js.findIndex p l = Some i → ∃ x, l !! i = Some x ∧ p x = true.
Proof.
  revert i. induction l as [|y l IH]; simpl; intros i; [done|].
  destruct (p y) eqn:Hy.
  - intros [= <-]. eauto.
  - destruct (Js.findIndex p l) as [j|]; simpl; [|done].
    intros [= <-]. by apply IH.
Qed.

Lemma findIndex_find (l : list A) :
  Js.findIndex p l = None ↔ Js.find p l = None.
Proof.
  induction l as [|y l IH]; simpl; [done|].
  destruct (p y); [done|].
  destruct (Js.findIndex p l); simpl; split; intros H;
    try done; by apply IH in H.
Qed.
End JsFacts.

(** ** Conversation identity *)

Lemma eqb_true (a b : string) : String.eqb a b = true ↔ a = b.
Proof. apply String.eqb_eq. Qed.

Lemma eqb_false (a b : string) : String.eqb a b = false ↔ a ≠ b.
Proof. apply String.eqb_neq. Qed.

(** The derived id is the smaller identity, an underscore, the larger. *)
Lemma conversationIdOf_unfold (a b : string) :
  Chat.conversationIdOf a b =
    if String.leb a b then a +:+ "_" +:+ b else b +:+ "_" +:+ a.
Proof.
  unfold Chat.conversationIdOf, Js.join. simpl.
  by destruct (String.leb a b).
Qed.

Lemma conversationIdOf_comm (a b : string) :
  Chat.conversationIdOf a b = Chat.conversationIdOf b a.
Proof.
  rewrite !conversationIdOf_unfold.
  destruct (String.leb a b) eqn:Hab, (String.leb b a) eqn:Hba; try done.
  - by rewrite (String.leb_antisym a b).
  - destruct (String.leb_total a b); congruence.
Qed.


(** C6. The conversation id derived for (a, b) equals the one derived for
    (b, a), and it is the two identities in ascending lexicographic order
    joined by an underscore. Distinctness of a and b is not needed. *)
Theorem conversationId_symmetric (a b : string) :
  Chat.conversationIdOf a b = Chat.conversationIdOf b a
  ∧ ∃ lo hi, ((lo = a ∧ hi = b) ∨ (lo = b ∧ hi = a))
             ∧ String.leb lo hi = true
             ∧ Chat.conversationIdOf a b = lo +:+ "_" +:+ hi.
Proof.
  split; [apply conversationIdOf_comm|].
  rewrite conversationIdOf_unfold.
  destruct (String.leb a b) eqn:Hab.
  - exists a, b. auto.
  - exists b, a. repeat split; auto.
    destruct (String.leb_total a b); congruence.
Qed.

(** ** Handler plumbing *)

Ltac unfold_handler :=
  unfold run, mbind, handler_bind, mret, handler_ret, query, update, reply,
    throw, when in *.

Lemma bind_ret {A B} (a : A) (k : A → Handler B) db :
  (mret a ≫= k) db = k a db.
Proof. done. Qed.

Lemma bind_query {A B} (f : DB → A) (k : A → Handler B) db :
  (query f ≫= k) db = k (f db) db.
Proof. done. Qed.

Lemma bind_update {B} (f : DB → DB) (k : unit → Handler B) db :
  (update f ≫= k) db = k tt (f db).
Proof. done. Qed.

Lemma bind_reply {A B} (r : Response) (k : A → Handler B) db :
  (reply r ≫= k) db = (inr (Replied r), db).
Proof. done. Qed.

Lemma bind_throw {A B} (k : A → Handler B) db :
  (throw ≫= k) db = (inr Thrown, db).
Proof. done. Qed.

Lemma bind_eq {A B} (m : Handler A) (k : A → Handler B) db a db' :
  m db = (inl a, db') → (m ≫= k) db = k a db'.
Proof. unfold mbind, handler_bind. by intros ->. Qed.

Lemma bind_stop {A B} (m : Handler A) (k : A → Handler B) db s db' :
  m db = (inr s, db') → (m ≫= k) db = (inr s, db').
Proof. unfold mbind, handler_bind. by intros ->. Qed.

Lemma run_eq body db r db' :
  body db = (inl r, db') → run body db = (r, db').
Proof. unfold run. by intros ->. Qed.

Lemma run_replied body db r db' :
  body db = (inr (Replied r), db') → run body db = (r, db').
Proof. unfold run. by intros ->. Qed.

Lemma run_thrown body db db' :
  body db = (inr Thrown, db') →
  run body db = (status 500 "Server error", db').
Proof. unfold run. by intros ->. Qed.

(** ** Presence registry *)

Lemma handle_authenticate verify clock sid token uid st :
  verify token = Some uid →
  Server.handle verify clock sid (Server.authenticate token) st
  = (Server.mk (<[uid := sid]> (Server.activeUsers st)) (Server.rooms st)
               (<[sid := uid]> (Server.userIdOf st)), []).
Proof. intros H. simpl. by rewrite H. Qed.

(** C4, as the code has it. The registry keeps one connection handle per
    identity: after a connection authenticates as an identity, lookup of
    that identity gives exactly this connection, whatever handle was
    registered for the identity before, and other identities keep theirs. *)
Theorem registry_keeps_last_connection
    verify clock (sid token uid : string) (st : Server.State) :
  verify token = Some uid →
  let st' := fst (Server.handle verify clock sid (Server.authenticate token) st) in
  Server.lookup uid st' = Some sid
  ∧ ∀ other, other ≠ uid → Server.lookup other st' = Server.lookup other st.
Proof.
  intros H. rewrite (handle_authenticate _ _ _ _ _ _ H). simpl.
  unfold Server.lookup. simpl. split.
  - apply lookup_insert_eq.
  - intros other Hne. by apply lookup_insert_ne.
Qed.

Lemma registry_keeps_last_connection_witness :
  Scenario.verify Scenario.patient = Some Scenario.patient
  ∧ Server.lookup Scenario.patient
      (fst (Server.handle Scenario.verify 0 "s2"
              (Server.authenticate Scenario.patient)
              (Server.handleAll Scenario.verify 0
                 [("s1", Server.connection);
                  ("s1", Server.authenticate Scenario.patient);
                  ("s2", Server.connection)] Server.init)))
    = Some "s2".
Proof.
  split; [reflexivity|].
  apply (registry_keeps_last_connection Scenario.verify 0 "s2"
           Scenario.patient Scenario.patient).
  reflexivity.
Defined.

(** C4 fails as stated: with two connections of the patient registered one
    after the other and both still open, lookup gives the second only; the
    first has been replaced. *)
Lemma registry_second_replaces_first :
  Server.userIdOf Scenario.twoTabs !! "s1" = Some Scenario.patient
  ∧ Server.userIdOf Scenario.twoTabs !! "s2" = Some Scenario.patient
  ∧ Server.lookup Scenario.patient Scenario.twoTabs = Some "s2"
  ∧ Server.lookup Scenario.patient Scenario.twoTabs ≠ Some "s1".
Proof. vm_compute. repeat split; discriminate. Qed.

(** ** Room relay *)

Lemma handle_userIdOf_None verify clock sid sid' ev st :
  Server.userIdOf st !! sid = None →
  (∀ token, sid' = sid → ev = Server.authenticate token → verify token = None) →
  Server.userIdOf (fst (Server.handle verify clock sid' ev st)) !! sid = None.
Proof.
  intros Hst Hev. destruct ev; simpl; try done.
  - destruct (verify token) as [uid|] eqn:Hv; simpl; [|done].
    destruct (decide (sid' = sid)) as [->|Hne].
    + rewrite (Hev token) in Hv; done.
    + by rewrite lookup_insert_ne.
  - by destruct (Server.activeUsers st !! receiverId).
  - by destruct (Server.activeUsers st !! receiverId).
  - by destruct (Server.activeUsers st !! receiverId).
  - destruct (Server.userIdOf st !! sid') as [uid|]; simpl; [|done].
    destruct (Js.truthy uid); simpl;
      (destruct (decide (sid' = sid)) as [->|Hne];
       [apply lookup_delete_eq | by rewrite lookup_delete_ne]).
Qed.

(** A socket none of whose [authenticate] events verified carries no
    identity, whatever else happened on the server. *)
Lemma never_authenticated verify clock sid evs st :
  Server.userIdOf st !! sid = None →
  (∀ token, (sid, Server.authenticate token) ∈ evs → verify token = None) →
  Server.userIdOf (Server.handleAll verify clock evs st) !! sid = None.
Proof.
  revert st. induction evs as [|[sid' ev] evs IH]; intros st Hst Hev; [done|].
  simpl. apply IH.
  - apply handle_userIdOf_None; [done|].
    intros token -> ->. apply Hev. left.
  - intros token Hin. apply Hev. by right.
Qed.

Lemma elem_of_toRoom sid room ev st target ev' :
  (target, ev') ∈ Server.toRoom sid room ev st
  ↔ ev' = ev ∧ target ∈ Server.members room st ∧ target ≠ sid.
Proof.
  unfold Server.toRoom. rewrite list_elem_of_fmap. split.
  - intros (t & [= -> ->] & Hin).
    apply elem_of_elements, elem_of_difference in Hin as [Hin Hne].
    rewrite elem_of_singleton in Hne. done.
  - intros (-> & Hin & Hne). exists target. split; [done|].
    apply elem_of_elements, elem_of_difference.
    by rewrite elem_of_singleton.
Qed.

Lemma members_join verify clock sid room st :
  Server.members room
    (fst (Server.handle verify clock sid (Server.join_video_session room) st))
  = {[sid]} ∪ Server.members room st.
Proof. unfold Server.members at 1. simpl. by rewrite lookup_insert_eq. Qed.

(** C10. A socket that never authenticated successfully carries no
    identity; its [join_video_session] still puts it in the room and tells
    every other member that a user with an undefined id joined, and its
    [video_signal] is relayed to every other member of the named room with
    an undefined sender. *)
Theorem unauthenticated_socket_relays
    verify clock (sid : string) evs (roomId signal : string) :
  (∀ token, (sid, Server.authenticate token) ∈ evs → verify token = None) →
  let st := Server.handleAll verify clock evs Server.init in
  let joined := Server.handle verify clock sid
                  (Server.join_video_session roomId) st in
  let relayed := Server.handle verify clock sid
                   (Server.video_signal_in roomId signal) st in
  Server.userIdOf st !! sid = None
  ∧ sid ∈ Server.members roomId (fst joined)
  ∧ (∀ target ev, (target, ev) ∈ snd joined
       ↔ ev = Server.user_joined None
         ∧ target ∈ Server.members roomId st ∧ target ≠ sid)
  ∧ (∀ target ev, (target, ev) ∈ snd relayed
       ↔ ev = Server.video_signal signal None
         ∧ target ∈ Server.members roomId st ∧ target ≠ sid).
Proof.
  intros Hev st joined relayed.
  assert (Server.userIdOf st !! sid = None) as Hnone.
  { apply never_authenticated; [done | exact Hev]. }
  split; [done|]. split; [|split].
  - unfold joined. rewrite members_join.
    apply elem_of_union_l. by apply elem_of_singleton.
  - intros target ev. unfold joined. simpl. rewrite Hnone.
    rewrite elem_of_toRoom. unfold Server.members at 1. simpl.
    rewrite lookup_insert_eq. simpl.
    fold (Server.members roomId st).
    rewrite elem_of_union, elem_of_singleton. split.
    + by intros (-> & [->|Hin] & Hne).
    + intros (-> & Hin & Hne). auto.
  - intros target ev. unfold relayed. simpl. rewrite Hnone.
    apply elem_of_toRoom.
Qed.

Lemma unauthenticated_socket_relays_witness :
  ("s1", Server.user_joined None)
    ∈ snd (Server.handle Scenario.verify 0 "g1"
             (Server.join_video_session Scenario.room1) Scenario.withGuest)
  ∧ ("s1", Server.video_signal "offer" None)
    ∈ snd (Server.handle Scenario.verify 0 "g1"
             (Server.video_signal_in Scenario.room1 "offer") Scenario.withGuest).
Proof.
  pose proof (unauthenticated_socket_relays Scenario.verify 0 "g1"
    [("s1", Server.connection); ("s1", Server.authenticate Scenario.therapist);
     ("s1", Server.join_video_session Scenario.room1);
     ("g1", Server.connection); ("g1", Server.authenticate "bad")]
    Scenario.room1 "offer") as H.
  destruct H as (_ & _ & Hjoin & Hsig).
  - intros token Hin.
    repeat (apply elem_of_cons in Hin as [Hin | Hin]; [by inversion Hin|]).
    by apply elem_of_nil in Hin.
  - split.
    + apply Hjoin. split; [done|]. split; [|done].
      eapply (bool_decide_unpack _). by vm_compute.
    + apply Hsig. split; [done|]. split; [|done].
      eapply (bool_decide_unpack _). by vm_compute.
Defined.

(** ** Video sessions: storage *)

Import VideoController.

Lemma preSave_fields t r v :
  let v' := VideoSession.preSave t r v in
  VideoSession._id v' = VideoSession._id v
  ∧ VideoSession.status v' = VideoSession.status v
  ∧ VideoSession.appointmentId v' = VideoSession.appointmentId v
  ∧ VideoSession.participants v' = VideoSession.participants v
  ∧ VideoSession.startTime v' = VideoSession.startTime v
  ∧ VideoSession.endTime v' = VideoSession.endTime v
  ∧ VideoSession.duration v' = VideoSession.duration v
  ∧ Js.truthy (VideoSession.roomId v') = true.
Proof.
  unfold VideoSession.preSave.
  destruct (Js.truthy (VideoSession.roomId v)) eqn:H; simpl; auto 10.
Qed.

Lemma preSave_id t r v :
  Js.truthy (VideoSession.roomId v) = true → VideoSession.preSave t r v = v.
Proof. unfold VideoSession.preSave. by intros ->. Qed.

Lemma findById_replaceById v oid l w :
  Js.find (λ w, String.eqb (VideoSession._id w) oid) l = Some w →
  VideoSession._id v = oid →
  Js.find (λ w, String.eqb (VideoSession._id w) oid) (replaceById v l) = Some v.
Proof.
  intros Hfind <-. unfold replaceById.
  induction l as [|x l IH]; simpl in *; [done|].
  destruct (String.eqb (VideoSession._id x) (VideoSession._id v)) eqn:Hx.
  - by rewrite String.eqb_refl.
  - rewrite Hx. auto.
Qed.

(** What [save] does to a loaded session. *)
Lemma save_loaded e loaded v w db :
  findById (VideoSession._id v) db = Some w →
  VideoSession.status loaded = VideoSession.status v
    ∨ validStatus (VideoSession.status v) = true →
  let v' := VideoSession.preSave (now e) (random e) v in
  save e loaded v db
  = (inl v', set_videoSessions (replaceById v' (videoSessions db)) db).
Proof.
  intros Hfind Hok v'. unfold save.
  destruct (preSave_fields (now e) (random e) v) as (Hid & Hst & _).
  fold v' in Hid, Hst |- *.
  rewrite bind_query, Hid, Hfind, Hst.
  rewrite bool_decide_true by eauto. cbn [negb].
  destruct Hok as [-> | ->].
  - by rewrite String.eqb_refl.
  - by rewrite andb_false_r.
Qed.

Lemma findById_saved v db w :
  findById (VideoSession._id v) db = Some w →
  findById (VideoSession._id v)
    (set_videoSessions (replaceById v (videoSessions db)) db) = Some v.
Proof. intros H. unfold findById in *. simpl. by eapply findById_replaceById. Qed.

Lemma findOneByRoom_findById room db v :
  findOneByRoom room db = Some v →
  ∃ w, findById (VideoSession._id v) db = Some w.
Proof.
  intros H. apply find_Some in H as [Hin _].
  unfold findById. destruct (Js.find _ _) eqn:Hf; [eauto|].
  eapply find_None in Hf; [|done]. by rewrite String.eqb_refl in Hf.
Qed.

(** ** Video sessions: status updates *)

(** The states of the scenario are the ones the handlers produce. *)
Lemma scenario_states :
  snd (run (createVideoSession (Scenario.at_ 1000) Scenario.asPatient
              (Some Scenario.videoAppointment)) Scenario.db0) = Scenario.db1
  ∧ snd (run (updateSessionStatus (Scenario.at_ 2000) Scenario.asTherapist
                Scenario.room1 "active" None) Scenario.db1)
    = Scenario.dbActive
  ∧ snd (run (updateSessionStatus (Scenario.at_ 1802000) Scenario.asPatient
                Scenario.room1 "ended" None) Scenario.dbActive)
    = Scenario.dbEnded.
Proof. by vm_compute. Qed.

Lemma applyStatus_fields e newStatus v :
  let v' := applyStatus e newStatus v in
  VideoSession._id v' = VideoSession._id v
  ∧ VideoSession.status v' = newStatus
  ∧ VideoSession.appointmentId v' = VideoSession.appointmentId v
  ∧ VideoSession.roomId v' = VideoSession.roomId v
  ∧ VideoSession.participants v' = VideoSession.participants v
  ∧ VideoSession.startTime v'
      = (if String.eqb newStatus "active"
         then Some (default (now e) (VideoSession.startTime v))
         else VideoSession.startTime v)
  ∧ VideoSession.endTime v'
      = (if String.eqb newStatus "ended" then Some (now e)
         else VideoSession.endTime v)
  ∧ VideoSession.duration v'
      = (if String.eqb newStatus "ended"
         then match VideoSession.startTime v with
              | Some start => Some ((now e - start) / 1000)
              | None => VideoSession.duration v
              end
         else VideoSession.duration v).
Proof.
  unfold applyStatus.
  destruct (String.eqb newStatus "ended") eqn:Hended.
  - apply eqb_true in Hended as ->. simpl.
    destruct (VideoSession.startTime v) eqn:Hs; simpl; rewrite ?Hs; auto 10.
  - destruct (String.eqb newStatus "active"); simpl;
      destruct (VideoSession.startTime v) eqn:Hs; simpl; rewrite ?Hs; auto 10.
Qed.

Lemma applyNotes_fields user notes v :
  let v' := applyNotes user notes v in
  VideoSession._id v' = VideoSession._id v
  ∧ VideoSession.status v' = VideoSession.status v
  ∧ VideoSession.appointmentId v' = VideoSession.appointmentId v
  ∧ VideoSession.roomId v' = VideoSession.roomId v
  ∧ VideoSession.participants v' = VideoSession.participants v
  ∧ VideoSession.startTime v' = VideoSession.startTime v
  ∧ VideoSession.endTime v' = VideoSession.endTime v
  ∧ VideoSession.duration v' = VideoSession.duration v.
Proof.
  unfold applyNotes.
  destruct (Js.truthy_opt notes), (String.eqb (role user) "therapist");
    simpl; auto 10.
Qed.

(** A status update by a participant that passes validation and whose
    appointment write (if any) goes through answers 200 with the saved
    document, and the stored document is overwritten with it. *)
Lemma updateSessionStatus_ok e user room newStatus notes db v :
  findOneByRoom room db = Some v →
  isParty (VideoSession.patientId v) (VideoSession.therapistId v) user = true →
  VideoSession.status v = newStatus ∨ validStatus newStatus = true →
  (newStatus = "ended" → appointmentWriteFails e = false) →
  let v' := updated e user newStatus notes v in
  let db1 := if String.eqb newStatus "ended"
             then withAppointmentStatus (VideoSession.appointmentId v)
                                        "completed" db
             else db in
  run (updateSessionStatus e user room newStatus notes) db
  = (json "Session status updated successfully" (PSession v'),
     set_videoSessions (replaceById v' (videoSessions db)) db1).
Proof.
  intros Hfind Hparty Hvalid Hstore v' db1.
  destruct (findOneByRoom_findById _ _ _ Hfind) as [w Hw].
  destruct (applyStatus_fields e newStatus v) as (Hid1 & Hst1 & Hap1 & _).
  destruct (applyNotes_fields user notes (applyStatus e newStatus v))
    as (Hid2 & Hst2 & _).
  unfold updateSessionStatus. apply run_eq.
  rewrite bind_query, Hfind, Hparty. cbn [negb]. cbv zeta.
  assert ((if String.eqb newStatus "ended"
           then findByIdAndUpdate e
                  (VideoSession.appointmentId (applyStatus e newStatus v))
                  "completed"
           else mret tt) db = (inl tt, db1)) as Hwrite.
  { unfold db1. destruct (String.eqb newStatus "ended") eqn:Hended; [|done].
    apply eqb_true in Hended. unfold findByIdAndUpdate.
    by rewrite (Hstore Hended), Hap1. }
  rewrite (bind_eq _ _ _ _ _ Hwrite).
  erewrite bind_eq; [reflexivity|].
  assert (findById (VideoSession._id
            (applyNotes user notes (applyStatus e newStatus v))) db1 = Some w)
    as Hw1.
  { rewrite Hid2, Hid1. unfold db1. by destruct (String.eqb newStatus "ended"). }
  rewrite (save_loaded e v _ w db1 Hw1).
  - unfold db1. by destruct (String.eqb newStatus "ended").
  - rewrite Hst2, Hst1. done.
Qed.

(** When the appointment store rejects the completion write, an [ended]
    update answers 500 and nothing is stored. *)
Lemma updateSessionStatus_store_down e user room notes db v :
  findOneByRoom room db = Some v →
  isParty (VideoSession.patientId v) (VideoSession.therapistId v) user = true →
  appointmentWriteFails e = true →
  run (updateSessionStatus e user room "ended" notes) db
  = (status 500 "Server error", db).
Proof.
  intros Hfind Hparty Hdown.
  unfold updateSessionStatus. apply run_thrown.
  rewrite bind_query, Hfind, Hparty. cbn [negb]. cbv zeta.
  apply bind_stop. simpl. unfold findByIdAndUpdate. by rewrite Hdown.
Qed.

Lemma updated_fields e user newStatus notes v :
  let v' := updated e user newStatus notes v in
  VideoSession._id v' = VideoSession._id v
  ∧ VideoSession.status v' = newStatus
  ∧ VideoSession.appointmentId v' = VideoSession.appointmentId v
  ∧ VideoSession.participants v' = VideoSession.participants v
  ∧ VideoSession.endTime v'
      = (if String.eqb newStatus "ended" then Some (now e)
         else VideoSession.endTime v).
Proof.
  unfold updated.
  destruct (preSave_fields (now e) (random e)
              (applyNotes user notes (applyStatus e newStatus v)))
    as (-> & -> & -> & -> & _ & -> & _).
  destruct (applyNotes_fields user notes (applyStatus e newStatus v))
    as (-> & -> & -> & _ & -> & _ & -> & _).
  destruct (applyStatus_fields e newStatus v)
    as (-> & -> & -> & _ & -> & _ & -> & _).
  auto.
Qed.




(** C2, as the code has it. An update to [ended] by a participant writes
    the appointment first and saves the session afterwards: when the
    appointment write fails the call answers 500 and the database is left
    as it was, the session not ended; when it succeeds the call answers
    200, the stored session is ended with the current end time and the
    linked appointment is completed. *)
Theorem ended_saved_only_after_appointment_write
    e user (room : string) notes db v :
  findOneByRoom room db = Some v →
  isParty (VideoSession.patientId v) (VideoSession.therapistId v) user = true →
  let out := run (updateSessionStatus e user room "ended" notes) db in
  (appointmentWriteFails e = true → out = (status 500 "Server error", db))
  ∧ (appointmentWriteFails e = false →
     code (fst out) = 200%nat
     ∧ (∃ v', findById (VideoSession._id v) (snd out) = Some v'
              ∧ VideoSession.status v' = "ended"
              ∧ VideoSession.endTime v' = Some (now e))
     ∧ appointments (snd out)
       = alter (Appointment.with_status "completed")
               (VideoSession.appointmentId v) (appointments db)).
Proof.
  intros Hfind Hparty out. split; intros Hstore.
  - by apply updateSessionStatus_store_down with v.
  - destruct (findOneByRoom_findById _ _ _ Hfind) as [w Hw].
    unfold out.
    rewrite (updateSessionStatus_ok e user room "ended" notes db v)
      by (auto; right; reflexivity).
    destruct (updated_fields e user "ended" notes v)
      as (Hid & Hst & _ & _ & Hend).
    simpl. split; [done|]. split; [|done].
    eexists. split; [|done].
    rewrite <- Hid. unfold findById in *. simpl.
    eapply findById_replaceById; [|done]. by rewrite Hid.
Qed.

Lemma ended_saved_only_after_appointment_write_witness :
  appointmentWriteFails (Scenario.storeDown 1802000) = true
  ∧ run (updateSessionStatus (Scenario.storeDown 1802000) Scenario.asPatient
           Scenario.room1 "ended" None) Scenario.dbActive
    = (status 500 "Server error", Scenario.dbActive).
Proof.
  split; [reflexivity|].
  eapply (ended_saved_only_after_appointment_write
            (Scenario.storeDown 1802000) Scenario.asPatient Scenario.room1
            None Scenario.dbActive).
  - reflexivity.
  - reflexivity.
  - reflexivity.
Defined.

(** C2 fails as stated: the patient ends the active session of the
    scenario while the appointment store rejects the write; the answer is
    500 and the stored session is still active. *)
Lemma ended_lost_when_appointment_write_fails :
  let out := run (updateSessionStatus (Scenario.storeDown 1802000)
                    Scenario.asPatient Scenario.room1 "ended" None)
               Scenario.dbActive in
  code (fst out) = 500%nat
  ∧ (VideoSession.status <$> findById Scenario.sessionOid (snd out))
    = Some "active"
  ∧ (VideoSession.endTime <$> findById Scenario.sessionOid (snd out))
    = Some None.
Proof. vm_compute. repeat split. Qed.

(** ** Video sessions: create-or-join *)

Lemma find_replaceById (p : VideoSession.t → bool) v v' l :
  Js.find p l = Some v →
  p v' = true →
  VideoSession._id v' = VideoSession._id v →
  Js.find p (replaceById v' l) = Some v'.
Proof.
  intros Hfind Hp Hid. unfold replaceById.
  induction l as [|x l IH]; simpl in *; [done|].
  destruct (p x) eqn:Hx.
  - injection Hfind as ->. by rewrite Hid, String.eqb_refl, Hp.
  - destruct (String.eqb (VideoSession._id x) (VideoSession._id v')).
    + by rewrite Hp.
    + rewrite Hx. auto.
Qed.


Lemma replaceById_fresh v l :
  (∀ w, w ∈ l → VideoSession._id w ≠ VideoSession._id v) →
  replaceById v l = l.
Proof.
  intros H. unfold replaceById.
  induction l as [|x l IH]; simpl; [done|]. f_equal.
  - assert (String.eqb (VideoSession._id x) (VideoSession._id v) = false) as ->;
      [|done].
    apply eqb_false, H. left.
  - apply IH. intros w Hw. apply H. by right.
Qed.

Lemma replaceById_app v l k :
  replaceById v (l ++ k) = (replaceById v l ++ replaceById v k)%list.
Proof. unfold replaceById. apply fmap_app. Qed.

Lemma replaceById_same v w :
  VideoSession._id v = VideoSession._id w → replaceById v [w] = [v].
Proof.
  intros H. unfold replaceById. cbn [fmap list_fmap].
  by rewrite H, String.eqb_refl.
Qed.

Lemma find_elem_of {A} (p : A → bool) (l : list A) (x : A) :
  Js.find p l = Some x → x ∈ l.
Proof. intros H. by apply find_Some in H as [? _]. Qed.

Lemma findById_elem_of v db :
  v ∈ videoSessions db → is_Some (findById (VideoSession._id v) db).
Proof.
  intros Hin. unfold findById.
  destruct (Js.find _ _) eqn:Hf; [eauto|].
  eapply find_None in Hf; [|done]. by rewrite String.eqb_refl in Hf.
Qed.

Lemma bind_assoc_run {A B} (m : Handler A) (k : A → Handler B) db :
  (m ≫= k) db
  = match m db with
    | (inl a, db') => k a db'
    | (inr s, db') => (inr s, db')
    end.
Proof. done. Qed.

Lemma saveNew_run e v db :
  validStatus (VideoSession.status v) = true →
  saveNew e v db
  = let v0 := VideoSession.preSave (now e) (random e) v in
    if taken v0 db then (inr Thrown, db)
    else (inl v0, set_videoSessions (videoSessions db ++ [v0]) db).
Proof.
  intros Hvalid. unfold saveNew. cbv zeta.
  destruct (preSave_fields (now e) (random e) v) as (_ & Hst & _).
  rewrite bind_query, Hst, Hvalid. cbn [negb orb].
  by destruct (taken _ db).
Qed.

(** What a create-or-join that passes the guards does. *)
Lemma createVideoSession_admitted e user aid db a :
  Js.truthy aid = true →
  admitted user aid db a →
  run (createVideoSession e user (Some aid)) db
  = match findOneByAppointment aid db with
    | Some v =>
        match Js.find (hasUserId (id user)) (VideoSession.participants v) with
        | Some _ => (created v, db)
        | None =>
            (created (withCaller e user v),
             set_videoSessions
               (replaceById (withCaller e user v) (videoSessions db)) db)
        end
    | None =>
        if taken (fresh e aid a) db then (status 500 "Server error", db)
        else (created (withCaller e user (fresh e aid a)),
              set_videoSessions
                (videoSessions db ++ [withCaller e user (fresh e aid a)]) db)
    end.
Proof.
  intros Haid (Ha & Hp & Ht & Hparty & Hconf).
  unfold createVideoSession. rewrite Haid. cbn [negb].
  unfold run. rewrite bind_query, Ha. cbv beta iota. rewrite bind_query.
  rewrite !bool_decide_true by done. cbn [andb negb].
  rewrite Hparty, Hconf. cbn [negb String.eqb Ascii.eqb Bool.eqb].
  rewrite bind_query.
  destruct (findOneByAppointment aid db) as [v|] eqn:Hfind.
  - rewrite bind_ret.
    destruct (Js.find _ (VideoSession.participants v)) eqn:Hpart.
    + by rewrite bind_ret.
    + destruct (findById_elem_of v db) as [w Hw];
        [by eapply find_elem_of|].
      erewrite bind_eq; [|by eapply save_loaded; eauto]. done.
  - rewrite (bind_assoc_run (saveNew e _)).
    rewrite saveNew_run by done. fold (fresh e aid a).
    cbv zeta. fold (fresh e aid a).
    destruct (taken (fresh e aid a) db) eqn:Htaken; [done|].
    cbv beta iota.
      assert (VideoSession.participants (fresh e aid a) = []) as Hnone.
      { unfold fresh.
        destruct (preSave_fields (now e) (random e)
                    (VideoSession.new (objectId e) (Appointment.patientId a)
                       (Appointment.therapistId a) aid))
          as (_ & _ & _ & -> & _).
        done. }
      replace (Js.find (hasUserId (id user))
                 (VideoSession.participants (fresh e aid a)))
        with (@None Participant.t) by by rewrite Hnone.
      set (db1 := set_videoSessions (videoSessions db ++ [fresh e aid a]) db).
      destruct (findById_elem_of (fresh e aid a) db1) as [w Hw].
      { unfold db1. simpl. apply elem_of_app. right. left. }
      erewrite bind_eq; [|by eapply save_loaded; eauto].
      unfold mret, handler_ret. fold (withCaller e user (fresh e aid a)).
      unfold db1, set_videoSessions. cbn [videoSessions users appointments chats].
      f_equal. f_equal.
      rewrite replaceById_app. f_equal.
      * apply replaceById_fresh. intros x Hx.
        unfold taken in Htaken.
        assert (String.eqb (VideoSession._id x)
                  (VideoSession._id (fresh e aid a)) = false) as Hne.
        { destruct (String.eqb (VideoSession._id x)
                      (VideoSession._id (fresh e aid a))) eqn:Hx'; [|done].
          rewrite <- Htaken. symmetry. apply existsb_exists.
          exists x. split; [by apply list_elem_of_In|]. by rewrite Hx'. }
        apply eqb_false in Hne.
        unfold withCaller.
        by destruct (preSave_fields (now e) (random e)
                    (VideoSession.with_participants
                       (VideoSession.participants (fresh e aid a)
                          ++ [joining e user]) (fresh e aid a)))
          as (-> & _).
      * apply replaceById_same. unfold withCaller.
        by destruct (preSave_fields (now e) (random e)
                    (VideoSession.with_participants
                       (VideoSession.participants (fresh e aid a)
                          ++ [joining e user]) (fresh e aid a)))
          as (-> & _).
Qed.

(** A create-or-join for an appointment that is not stored answers 404
    and stores nothing. *)
Lemma createVideoSession_missing e user aid db :
  Js.truthy aid = true →
  appointments db !! aid = None →
  run (createVideoSession e user (Some aid)) db
  = (status 404 "Appointment not found", db).
Proof.
  intros Haid Ha. unfold createVideoSession. rewrite Haid. cbn [negb].
  unfold run. by rewrite bind_query, Ha.
Qed.

(** A create-or-join either passes every guard or leaves the database as
    it was and answers with an error code. *)
Lemma createVideoSession_guarded e user aid db :
  (∃ a, Js.truthy aid = true ∧ admitted user aid db a)
  ∨ (snd (run (createVideoSession e user (Some aid)) db) = db
     ∧ code (fst (run (createVideoSession e user (Some aid)) db)) ≠ 200%nat).
Proof.
  destruct (Js.truthy aid) eqn:Haid; cycle 1.
  { right. unfold createVideoSession. rewrite Haid. done. }
  destruct (appointments db !! aid) as [a|] eqn:Ha; cycle 1.
  { right. by rewrite createVideoSession_missing. }
  destruct (decide (is_Some (users db !! Appointment.patientId a)
                    ∧ is_Some (users db !! Appointment.therapistId a)))
    as [[Hp Ht]|Hdangling]; cycle 1.
  { right. unfold createVideoSession. rewrite Haid. cbn [negb].
    unfold run. rewrite bind_query, Ha. cbv beta iota. rewrite bind_query.
    apply not_and_l in Hdangling as [H|H]; rewrite (bool_decide_false _ H);
      rewrite ?andb_false_r; done. }
  destruct (isParty (Appointment.patientId a) (Appointment.therapistId a) user)
    eqn:Hparty; cycle 1.
  { right. unfold createVideoSession. rewrite Haid. cbn [negb].
    unfold run. rewrite bind_query, Ha. cbv beta iota. rewrite bind_query.
    rewrite !bool_decide_true by done. cbn [andb negb].
    by rewrite Hparty. }
  destruct (String.eqb (Appointment.status a) "confirmed") eqn:Hconf; cycle 1.
  { right. unfold createVideoSession. rewrite Haid. cbn [negb].
    unfold run. rewrite bind_query, Ha. cbv beta iota. rewrite bind_query.
    rewrite !bool_decide_true by done. cbn [andb negb].
    by rewrite Hparty, Hconf. }
  left. exists a. apply eqb_true in Hconf. by repeat split.
Qed.





Lemma withCaller_fields e user v :
  let v' := withCaller e user v in
  VideoSession._id v' = VideoSession._id v
  ∧ VideoSession.status v' = VideoSession.status v
  ∧ VideoSession.appointmentId v' = VideoSession.appointmentId v
  ∧ VideoSession.participants v'
      = (VideoSession.participants v ++ [joining e user])%list
  ∧ Js.truthy (VideoSession.roomId v') = true
  ∧ (Js.truthy (VideoSession.roomId v) = true →
     v' = VideoSession.with_participants
            (VideoSession.participants v ++ [joining e user]) v).
Proof.
  unfold withCaller.
  destruct (preSave_fields (now e) (random e)
              (VideoSession.with_participants
                 (VideoSession.participants v ++ [joining e user]) v))
    as (-> & -> & -> & -> & _ & _ & _ & ->).
  repeat split. intros H. by apply preSave_id.
Qed.

Lemma fresh_fields e aid a :
  VideoSession.appointmentId (fresh e aid a) = aid
  ∧ VideoSession.participants (fresh e aid a) = []
  ∧ Js.truthy (VideoSession.roomId (fresh e aid a)) = true.
Proof.
  unfold fresh.
  destruct (preSave_fields (now e) (random e)
              (VideoSession.new (objectId e) (Appointment.patientId a)
                 (Appointment.therapistId a) aid))
    as (_ & _ & -> & -> & _ & _ & _ & ->).
  done.
Qed.








(** ** Video sessions: participants *)

Lemma find_None_userIds uid (ps : list Participant.t) :
  Js.find (hasUserId uid) ps = None → uid ∉ Participant.userId <$> ps.
Proof.
  intros H Hin. apply list_elem_of_fmap in Hin as (p & -> & Hp).
  eapply find_None in H; [|done].
  unfold hasUserId in H. by rewrite String.eqb_refl in H.
Qed.

Lemma userIds_alter_joinedAt t (i : nat) (ps : list Participant.t) :
  Participant.userId <$> alter (Participant.with_joinedAt t) i ps
  = Participant.userId <$> ps.
Proof.
  revert i. induction ps as [|p ps IH]; intros [|i]; try done.
  cbn [alter list_alter fmap list_fmap]. f_equal. apply IH.
Qed.

(** The participant bookkeeping of a join never lists a user twice. *)
Lemma touchParticipant_NoDup e user ps :
  NoDup (Participant.userId <$> ps) →
  NoDup (Participant.userId <$> touchParticipant e user ps).
Proof.
  intros Hnd. unfold touchParticipant.
  destruct (Js.findIndex _ ps) as [i|] eqn:Hi.
  - by rewrite userIds_alter_joinedAt.
  - apply findIndex_find in Hi. apply find_None_userIds in Hi.
    rewrite fmap_app. simpl. apply NoDup_app. repeat split; [done| |].
    + intros x Hx Hx'. apply list_elem_of_singleton in Hx'. by subst.
    + apply NoDup_singleton.
Qed.

(** On a rejoin the entry of the caller is refreshed in place. *)
Lemma touchParticipant_rejoin e user (ps : list Participant.t) (i : nat) :
  Js.findIndex (hasUserId (id user)) ps = Some i →
  touchParticipant e user ps = alter (Participant.with_joinedAt (now e)) i ps
  ∧ length (touchParticipant e user ps) = length ps
  ∧ ∃ p, touchParticipant e user ps !! i = Some p
         ∧ Participant.userId p = id user
         ∧ Participant.joinedAt p = Some (now e).
Proof.
  intros Hi. unfold touchParticipant. rewrite Hi.
  split; [done|]. split; [apply length_alter|].
  apply findIndex_Some in Hi as (p & Hp & Hid).
  exists (Participant.with_joinedAt (now e) p).
  rewrite list_lookup_alter_eq, Hp. simpl.
  repeat split. unfold hasUserId in Hid. by apply eqb_true.
Qed.

(** A join by a participant of a stored session answers 200 and
    overwrites the session with its participants touched. *)
Lemma joinVideoSession_ok e user room db v :
  findOneByRoom room db = Some v →
  isParty (VideoSession.patientId v) (VideoSession.therapistId v) user = true →
  run (joinVideoSession e user room) db
  = (json "Joined video session successfully"
       (PJoined (VideoSession.roomId (joined e user v))
                (VideoSession.status (joined e user v))
                (length (VideoSession.participants (joined e user v)))),
     set_videoSessions (replaceById (joined e user v) (videoSessions db)) db).
Proof.
  intros Hfind Hparty.
  destruct (findOneByRoom_findById _ _ _ Hfind) as [w Hw].
  unfold joinVideoSession. apply run_eq.
  rewrite bind_query, Hfind, Hparty. cbn [negb]. cbv zeta.
  erewrite bind_eq; [|by eapply save_loaded; eauto]. done.
Qed.

(** A join changes the stored sessions only through [joined]. *)
Lemma joinVideoSession_sessions e user room db :
  videoSessions (snd (run (joinVideoSession e user room) db))
    = videoSessions db
  ∨ ∃ v, v ∈ videoSessions db
         ∧ videoSessions (snd (run (joinVideoSession e user room) db))
           = replaceById (joined e user v) (videoSessions db).
Proof.
  destruct (findOneByRoom room db) as [v|] eqn:Hfind.
  - destruct (isParty (VideoSession.patientId v) (VideoSession.therapistId v)
                user) eqn:Hparty.
    + right. exists v. split; [by eapply find_elem_of|].
      by rewrite (joinVideoSession_ok e user room db v).
    + left. unfold joinVideoSession, run.
      by rewrite bind_query, Hfind, Hparty.
  - left. unfold joinVideoSession, run. by rewrite bind_query, Hfind.
Qed.

Lemma uniqueParticipants_replaceById v l :
  NoDup (Participant.userId <$> VideoSession.participants v) →
  Forall (λ v, NoDup (Participant.userId <$> VideoSession.participants v)) l →
  Forall (λ v, NoDup (Participant.userId <$> VideoSession.participants v))
         (replaceById v l).
Proof.
  intros Hv Hl. unfold replaceById. apply Forall_fmap.
  eapply Forall_impl; [exact Hl|]. intros w Hw. simpl.
  by destruct (String.eqb _ _).
Qed.

(** A status update changes the stored sessions only through
    [updated]. *)
Lemma updateSessionStatus_sessions e user room newStatus notes db :
  videoSessions (snd (run (updateSessionStatus e user room newStatus notes) db))
    = videoSessions db
  ∨ ∃ v, v ∈ videoSessions db
         ∧ videoSessions
             (snd (run (updateSessionStatus e user room newStatus notes) db))
           = replaceById (updated e user newStatus notes v) (videoSessions db).
Proof.
  destruct (findOneByRoom room db) as [v|] eqn:Hfind; cycle 1.
  { left. unfold updateSessionStatus, run. by rewrite bind_query, Hfind. }
  destruct (isParty (VideoSession.patientId v) (VideoSession.therapistId v)
              user) eqn:Hparty; cycle 1.
  { left. unfold updateSessionStatus, run.
    by rewrite bind_query, Hfind, Hparty. }
  destruct (decide (newStatus = "ended" ∧ appointmentWriteFails e = true))
    as [[-> Hdown]|Hup].
  { left. by rewrite (updateSessionStatus_store_down e user room notes db v). }
  destruct (decide (VideoSession.status v = newStatus
                    ∨ validStatus newStatus = true)) as [Hvalid|Hinvalid].
  { right. exists v. split; [by eapply find_elem_of|].
    rewrite (updateSessionStatus_ok e user room newStatus notes db v);
      [done..|].
    intros ->. destruct (appointmentWriteFails e); [|done].
    by destruct Hup. }
  left.
  assert (String.eqb newStatus "ended" = false) as Hended.
  { apply eqb_false. intros ->. apply Hinvalid. by right. }
  destruct (findOneByRoom_findById _ _ _ Hfind) as [w Hw].
  destruct (applyStatus_fields e newStatus v) as (Hid1 & Hst1 & _).
  destruct (applyNotes_fields user notes (applyStatus e newStatus v))
    as (Hid2 & Hst2 & _).
  destruct (preSave_fields (now e) (random e)
              (applyNotes user notes (applyStatus e newStatus v)))
    as (Hid3 & Hst3 & _).
  unfold updateSessionStatus, run.
  rewrite bind_query, Hfind, Hparty. cbn [negb]. cbv zeta.
  rewrite Hended, bind_ret. unfold save. cbv zeta.
  rewrite bind_assoc_run, bind_query, Hid3, Hid2, Hid1, Hw.
  rewrite bool_decide_true by eauto. cbn [negb].
  rewrite Hst3, Hst2, Hst1.
  assert (String.eqb (VideoSession.status v) newStatus = false) as ->.
  { apply eqb_false. intros H. apply Hinvalid. by left. }
  assert (validStatus newStatus = false) as ->.
  { apply not_true_is_false. intros H. apply Hinvalid. by right. }
  done.
Qed.

Lemma updateSessionStatus_unique e user room newStatus notes db :
  uniqueParticipants db →
  uniqueParticipants
    (snd (run (updateSessionStatus e user room newStatus notes) db)).
Proof.
  unfold uniqueParticipants. intros Hdb.
  destruct (updateSessionStatus_sessions e user room newStatus notes db)
    as [->|(v & Hv & ->)]; [done|].
  apply uniqueParticipants_replaceById; [|done].
  destruct (updated_fields e user newStatus notes v) as (_ & _ & _ & -> & _).
  rewrite Forall_forall in Hdb. by apply Hdb.
Qed.

Lemma joinVideoSession_unique e user room db :
  uniqueParticipants db →
  uniqueParticipants (snd (run (joinVideoSession e user room) db)).
Proof.
  unfold uniqueParticipants. intros Hdb.
  destruct (joinVideoSession_sessions e user room db) as [->|(v & Hv & ->)];
    [done|].
  apply uniqueParticipants_replaceById; [|done].
  unfold joined.
  destruct (preSave_fields (now e) (random e)
              (VideoSession.with_participants
                 (touchParticipant e user (VideoSession.participants v)) v))
    as (_ & _ & _ & -> & _).
  simpl. apply touchParticipant_NoDup.
  rewrite Forall_forall in Hdb. by apply Hdb.
Qed.

Lemma createVideoSession_unique e user aid db :
  uniqueParticipants db →
  uniqueParticipants (snd (run (createVideoSession e user (Some aid)) db)).
Proof.
  unfold uniqueParticipants. intros Hdb.
  destruct (createVideoSession_guarded e user aid db)
    as [(a & Haid & Ha)|[-> _]]; [|done].
  rewrite (createVideoSession_admitted e user aid db a Haid Ha).
  destruct (findOneByAppointment aid db) as [v|] eqn:Hfind.
  - destruct (Js.find _ (VideoSession.participants v)) eqn:Hpart; [done|].
    cbn [snd videoSessions set_videoSessions].
    apply uniqueParticipants_replaceById; [|done].
    destruct (withCaller_fields e user v) as (_ & _ & _ & -> & _).
    rewrite fmap_app. apply NoDup_app. repeat split.
    + rewrite Forall_forall in Hdb. apply Hdb. by eapply find_elem_of.
    + intros x Hx Hx'. apply list_elem_of_singleton in Hx'. subst.
      by apply find_None_userIds in Hpart.
    + apply NoDup_singleton.
  - destruct (taken (fresh e aid a) db); [done|].
    cbn [snd videoSessions set_videoSessions].
    apply Forall_app. split; [done|]. apply Forall_singleton.
    destruct (withCaller_fields e user (fresh e aid a))
      as (_ & _ & _ & -> & _).
    destruct (fresh_fields e aid a) as (_ & -> & _).
    apply NoDup_singleton.
Qed.

(** A create-or-join by a user the session already lists stores
    nothing. *)
Lemma createVideoSession_listed e user aid db v :
  findOneByAppointment aid db = Some v →
  is_Some (Js.find (hasUserId (id user)) (VideoSession.participants v)) →
  snd (run (createVideoSession e user (Some aid)) db) = db.
Proof.
  intros Hfind [p Hp].
  destruct (createVideoSession_guarded e user aid db)
    as [(a & Haid & Ha)|[-> _]]; [|done].
  rewrite (createVideoSession_admitted e user aid db a Haid Ha).
  by rewrite Hfind, Hp.
Qed.

(** C9, as the code has it. A join by a user the session already lists
    refreshes [joinedAt] of that entry to the current time and appends
    nothing; a create-or-join by such a user leaves the stored session,
    its [joinedAt] included, as it was; and no call of the video
    controller ever makes a participants list with two entries of the same
    user. *)
Theorem rejoin_refreshes_entry
    e user (room aid newStatus : string) notes db :
  uniqueParticipants db →
  (∀ v i,
     findOneByRoom room db = Some v →
     isParty (VideoSession.patientId v) (VideoSession.therapistId v) user
       = true →
     Js.findIndex (hasUserId (id user)) (VideoSession.participants v)
       = Some i →
     let out := run (joinVideoSession e user room) db in
     code (fst out) = 200%nat
     ∧ ∃ v', findById (VideoSession._id v) (snd out) = Some v'
             ∧ VideoSession.participants v'
               = alter (Participant.with_joinedAt (now e)) i
                       (VideoSession.participants v)
             ∧ length (VideoSession.participants v')
               = length (VideoSession.participants v)
             ∧ ∃ p, VideoSession.participants v' !! i = Some p
                    ∧ Participant.userId p = id user
                    ∧ Participant.joinedAt p = Some (now e))
  ∧ (∀ v,
       findOneByAppointment aid db = Some v →
       is_Some (Js.find (hasUserId (id user)) (VideoSession.participants v)) →
       snd (run (createVideoSession e user (Some aid)) db) = db)
  ∧ uniqueParticipants (snd (run (joinVideoSession e user room) db))
  ∧ uniqueParticipants (snd (run (createVideoSession e user (Some aid)) db))
  ∧ uniqueParticipants
      (snd (run (updateSessionStatus e user room newStatus notes) db)).
Proof.
  intros Hdb. split; [|split; [|split; [|split]]].
  - intros v i Hfind Hparty Hi out. unfold out.
    rewrite (joinVideoSession_ok e user room db v Hfind Hparty).
    cbn [fst snd code json]. split; [done|].
    destruct (findOneByRoom_findById _ _ _ Hfind) as [w Hw].
    exists (joined e user v).
    assert (VideoSession._id (joined e user v) = VideoSession._id v
            ∧ VideoSession.participants (joined e user v)
              = touchParticipant e user (VideoSession.participants v))
      as [Hid Hps].
    { unfold joined.
      by destruct (preSave_fields (now e) (random e)
              (VideoSession.with_participants
                 (touchParticipant e user (VideoSession.participants v)) v))
        as (-> & _ & _ & -> & _). }
    destruct (touchParticipant_rejoin e user _ i Hi) as (Halter & Hlen & Hp).
    split.
    + rewrite <- Hid. apply findById_saved with w. by rewrite Hid.
    + rewrite Hps. by rewrite <- Halter.
  - intros v. apply createVideoSession_listed.
  - by apply joinVideoSession_unique.
  - by apply createVideoSession_unique.
  - by apply updateSessionStatus_unique.
Qed.

Lemma rejoin_refreshes_entry_witness :
  uniqueParticipants Scenario.db1
  ∧ code (fst (run (joinVideoSession (Scenario.at_ 5000) Scenario.asPatient
                      Scenario.room1) Scenario.db1)) = 200%nat
  ∧ uniqueParticipants
      (snd (run (joinVideoSession (Scenario.at_ 5000) Scenario.asPatient
                   Scenario.room1) Scenario.db1)).
Proof.
  assert (uniqueParticipants Scenario.db1) as Hdb.
  { apply Forall_singleton. apply NoDup_singleton. }
  split; [exact Hdb|].
  destruct (rejoin_refreshes_entry (Scenario.at_ 5000) Scenario.asPatient
              Scenario.room1 Scenario.videoAppointment "active" None
              Scenario.db1 Hdb)
    as (Hjoin & _ & Huniq & _).
  split; [|exact Huniq].
  eapply (Hjoin _ 0%nat); reflexivity.
Defined.

(** C9 fails as stated: the patient, listed since 1000, calls
    create-or-join again at 5000; the call answers 200 and [joinedAt] is
    still 1000, whereas a join at 5000 sets it to 5000. *)
Lemma createVideoSession_keeps_joinedAt :
  let again := run (createVideoSession (Scenario.at_ 5000) Scenario.asPatient
                      (Some Scenario.videoAppointment)) Scenario.db1 in
  let rejoin := run (joinVideoSession (Scenario.at_ 5000) Scenario.asPatient
                       Scenario.room1) Scenario.db1 in
  code (fst again) = 200%nat
  ∧ (VideoSession.participants <$> findById Scenario.sessionOid (snd again))
    = Some [Participant.mk Scenario.patient (Some 1000) None None]
  ∧ (VideoSession.participants <$> findById Scenario.sessionOid (snd rejoin))
    = Some [Participant.mk Scenario.patient (Some 5000) None None].
Proof. vm_compute. repeat split. Qed.

(** ** Chat: sending *)

Import ChatController.

Lemma haveAppointments_sym a b db :
  haveAppointments a b db = haveAppointments b a db.
Proof.
  unfold haveAppointments.
  induction (snd <$> map_to_list (appointments db)) as [|x l IH]; [done|].
  simpl. rewrite IH. f_equal. apply orb_comm.
Qed.

(** The relationship check does not depend on who asks. *)
Lemma checkTherapeuticRelationship_sym a b db :
  checkTherapeuticRelationship a b db = checkTherapeuticRelationship b a db.
Proof.
  unfold checkTherapeuticRelationship.
  destruct (users db !! a) as [ua|], (users db !! b) as [ub|]; try done.
  rewrite (orb_comm (String.eqb (User.role ua) "admin")).
  destruct (_ || _); [done|].
  rewrite (orb_comm (_ && _)).
  rewrite (andb_comm (String.eqb (User.role ua) "patient")).
  rewrite (andb_comm (String.eqb (User.role ua) "therapist")).
  destruct (_ || _); [|done]. apply haveAppointments_sym.
Qed.


Lemma sent_fields e user receiver body ty :
  let m := sent e user receiver body ty in
  Chat._id m = objectId e
  ∧ Chat.senderId m = id user
  ∧ Chat.receiverId m = receiver
  ∧ Chat.message m = body
  ∧ Chat.messageType m = default "text" ty
  ∧ Chat.isRead m = false
  ∧ Chat.conversationId m = Chat.conversationIdOf (id user) receiver.
Proof. by repeat split. Qed.

(** A send that passes validation, the receiver lookup and the
    relationship check stores the message and answers 201. *)
Lemma sendMessage_ok e user receiver body ty db :
  Js.truthy receiver = true →
  Js.truthy body = true →
  (String.length body ≤ 1000)%nat →
  is_Some (users db !! receiver) →
  checkTherapeuticRelationship (id user) receiver db = true
    ∨ role user = "admin" →
  validMessageType (default "text" ty) = true →
  (∀ m, m ∈ chats db → Chat._id m ≠ objectId e) →
  run (sendMessage e user (Some receiver) (Some body) ty) db
  = (mkResponse 201 "Message sent successfully"
       (Some (PChat (sent e user receiver body ty))),
     set_chats (chats db ++ [sent e user receiver body ty]) db).
Proof.
  intros Hr Hb Hlen Hu Hrel Hty Hfresh.
  assert ((1000 <? String.length body)%nat = false) as Hlen'
    by by apply Nat.ltb_ge.
  unfold sendMessage. cbv zeta. cbn [Js.truthy_opt from_option Datatypes.id].
  rewrite Hr, Hb, Hlen'.
  cbn [negb orb]. apply run_eq.
  rewrite bind_query, bool_decide_true by done. cbn [negb].
  rewrite bind_query.
  assert (negb (checkTherapeuticRelationship (id user) receiver db)
          && negb (String.eqb (role user) "admin") = false) as ->.
  { destruct Hrel as [-> | ->]; [done|]. by rewrite andb_false_r. }
  fold (sent e user receiver body ty).
  erewrite bind_eq; [reflexivity|].
  unfold saveNew. fold (sent e user receiver body ty).
  destruct (sent_fields e user receiver body ty)
    as (Hid & _ & _ & Hbody & Htype & _).
  rewrite bind_query, Htype, Hty, Hbody, Hlen'. cbn [negb orb].
  assert (existsb (λ w, String.eqb (Chat._id w)
                          (Chat._id (sent e user receiver body ty)))
            (chats db) = false) as ->; [|done].
  apply not_true_is_false. intros Hex.
  apply existsb_exists in Hex as (w & Hw & Heq).
  apply eqb_true in Heq. apply (Hfresh w); [by apply list_elem_of_In|].
  by rewrite Heq.
Qed.






(** ** Chat: reading *)





Lemma markAsRead_run e user conv db :
  run (markAsRead e user conv) db
  = (status 200 "Messages marked as read",
     set_chats (markOne e conv (id user) <$> chats db) db).
Proof. done. Qed.



(** * Further properties *)

(** ** Status updates, case by case *)

Lemma applyStatus_parties e newStatus v :
  VideoSession.patientId (applyStatus e newStatus v) = VideoSession.patientId v
  ∧ VideoSession.therapistId (applyStatus e newStatus v)
    = VideoSession.therapistId v
  ∧ VideoSession.therapistNotes (applyStatus e newStatus v)
    = VideoSession.therapistNotes v
  ∧ VideoSession.patientFeedback (applyStatus e newStatus v)
    = VideoSession.patientFeedback v.
Proof.
  unfold applyStatus. cbv zeta.
  repeat (case_match; cbn [VideoSession.patientId VideoSession.therapistId
    VideoSession.therapistNotes VideoSession.patientFeedback
    VideoSession.with_status VideoSession.with_startTime
    VideoSession.with_endTime VideoSession.with_duration]); auto.
Qed.

Lemma applyNotes_parties user notes v :
  VideoSession.patientId (applyNotes user notes v) = VideoSession.patientId v
  ∧ VideoSession.therapistId (applyNotes user notes v)
    = VideoSession.therapistId v.
Proof.
  unfold applyNotes.
  destruct (Js.truthy_opt notes), (String.eqb (role user) "therapist");
    simpl; auto.
Qed.

Lemma preSave_parties t r v :
  VideoSession.patientId (VideoSession.preSave t r v)
    = VideoSession.patientId v
  ∧ VideoSession.therapistId (VideoSession.preSave t r v)
    = VideoSession.therapistId v
  ∧ VideoSession.therapistNotes (VideoSession.preSave t r v)
    = VideoSession.therapistNotes v
  ∧ VideoSession.patientFeedback (VideoSession.preSave t r v)
    = VideoSession.patientFeedback v
  ∧ (Js.truthy (VideoSession.roomId v) = true →
     VideoSession.roomId (VideoSession.preSave t r v) = VideoSession.roomId v).
Proof.
  unfold VideoSession.preSave.
  destruct (Js.truthy (VideoSession.roomId v)); simpl; auto.
  repeat split; auto. discriminate.
Qed.

(** The identity of a session survives a status update. *)
Lemma updated_identity e user newStatus notes v :
  Js.truthy (VideoSession.roomId v) = true →
  Store.identity (updated e user newStatus notes v) = Store.identity v.
Proof.
  intros Hroom. unfold Store.identity, updated.
  destruct (applyStatus_fields e newStatus v) as (Hi1 & _ & Ha1 & Hr1 & _).
  destruct (applyStatus_parties e newStatus v) as (Hp1 & Ht1 & _).
  destruct (applyNotes_fields user notes (applyStatus e newStatus v))
    as (Hi2 & _ & Ha2 & Hr2 & _).
  destruct (applyNotes_parties user notes (applyStatus e newStatus v))
    as (Hp2 & Ht2).
  destruct (preSave_fields (now e) (random e)
              (applyNotes user notes (applyStatus e newStatus v)))
    as (Hi3 & _ & Ha3 & _).
  destruct (preSave_parties (now e) (random e)
              (applyNotes user notes (applyStatus e newStatus v)))
    as (Hp3 & Ht3 & _ & _ & Hr3).
  rewrite Hi3, Hi2, Hi1, Hp3, Hp2, Hp1, Ht3, Ht2, Ht1, Ha3, Ha2, Ha1.
  rewrite Hr3 by (by rewrite Hr2, Hr1). by rewrite Hr2, Hr1.
Qed.

(** Every outcome of a status update. *)
Lemma updateSessionStatus_cases e user room newStatus notes db :
  let out := run (updateSessionStatus e user room newStatus notes) db in
  (findOneByRoom room db = None
   ∧ out = (status 404 "Video session not found", db))
  ∨ ∃ v, findOneByRoom room db = Some v
    ∧ ((isParty (VideoSession.patientId v) (VideoSession.therapistId v) user
          = false
        ∧ out = (status 403 "Access denied", db))
       ∨ (isParty (VideoSession.patientId v) (VideoSession.therapistId v) user
            = true
          ∧ ((newStatus = "ended" ∧ appointmentWriteFails e = true
              ∧ out = (status 500 "Server error", db))
             ∨ (VideoSession.status v ≠ newStatus
                ∧ validStatus newStatus = false
                ∧ out = (status 500 "Server error", db))
             ∨ ((VideoSession.status v = newStatus
                 ∨ validStatus newStatus = true)
                ∧ (newStatus = "ended" → appointmentWriteFails e = false)
                ∧ out
                  = (json "Session status updated successfully"
                       (PSession (updated e user newStatus notes v)),
                     set_videoSessions
                       (replaceById (updated e user newStatus notes v)
                                    (videoSessions db))
                       (if String.eqb newStatus "ended"
                        then withAppointmentStatus
                               (VideoSession.appointmentId v) "completed" db
                        else db)))))).
Proof.
  intros out. unfold out.
  destruct (findOneByRoom room db) as [v|] eqn:Hfind; cycle 1.
  { left. split; [done|]. unfold updateSessionStatus, run.
    by rewrite bind_query, Hfind. }
  right. exists v. split; [done|].
  destruct (isParty (VideoSession.patientId v) (VideoSession.therapistId v)
              user) eqn:Hparty; cycle 1.
  { left. split; [done|]. unfold updateSessionStatus, run.
    by rewrite bind_query, Hfind, Hparty. }
  right. split; [done|].
  destruct (decide (newStatus = "ended" ∧ appointmentWriteFails e = true))
    as [[-> Hdown]|Hup].
  { left. repeat split; [done|].
    by apply updateSessionStatus_store_down with v. }
  right.
  assert (newStatus = "ended" → appointmentWriteFails e = false) as Hstore.
  { intros ->. destruct (appointmentWriteFails e); [|done]. by destruct Hup. }
  destruct (decide (VideoSession.status v = newStatus
                    ∨ validStatus newStatus = true)) as [Hvalid|Hinvalid].
  { right. split; [done|]. split; [done|].
    by apply updateSessionStatus_ok. }
  left.
  assert (VideoSession.status v ≠ newStatus) as Hne by tauto.
  assert (validStatus newStatus = false) as Hbad.
  { apply not_true_is_false. tauto. }
  split; [done|]. split; [done|].
  assert (String.eqb newStatus "ended" = false) as Hended.
  { apply eqb_false. intros ->. by vm_compute in Hbad. }
  destruct (findOneByRoom_findById _ _ _ Hfind) as [w Hw].
  destruct (applyStatus_fields e newStatus v) as (Hid1 & Hst1 & _).
  destruct (applyNotes_fields user notes (applyStatus e newStatus v))
    as (Hid2 & Hst2 & _).
  destruct (preSave_fields (now e) (random e)
              (applyNotes user notes (applyStatus e newStatus v)))
    as (Hid3 & Hst3 & _).
  unfold updateSessionStatus. apply run_thrown.
  rewrite bind_query, Hfind, Hparty. cbn [negb]. cbv zeta.
  rewrite Hended, bind_ret. apply bind_stop. unfold save. cbv zeta.
  rewrite bind_query, Hid3, Hid2, Hid1, Hw.
  rewrite bool_decide_true by eauto. cbn [negb].
  rewrite Hst3, Hst2, Hst1.
  apply eqb_false in Hne. by rewrite Hne, Hbad.
Qed.

(** A successful status update leaves the session findable by its room. *)
Lemma updateSessionStatus_found e user room newStatus notes db v :
  Js.truthy room = true →
  findOneByRoom room db = Some v →
  isParty (VideoSession.patientId v) (VideoSession.therapistId v) user = true →
  VideoSession.status v = newStatus ∨ validStatus newStatus = true →
  (newStatus = "ended" → appointmentWriteFails e = false) →
  let out := run (updateSessionStatus e user room newStatus notes) db in
  code (fst out) = 200%nat
  ∧ findOneByRoom room (snd out) = Some (updated e user newStatus notes v)
  ∧ findById (VideoSession._id v) (snd out)
    = Some (updated e user newStatus notes v).
Proof.
  intros Hroom Hfind Hparty Hvalid Hstore out. unfold out.
  rewrite (updateSessionStatus_ok e user room newStatus notes db v) by done.
  cbn [fst snd code json]. split; [done|].
  pose proof (find_Some _ _ _ Hfind) as [_ Hv]. cbv beta in Hv.
  apply eqb_true in Hv.
  assert (Js.truthy (VideoSession.roomId v) = true) as Hrv by by rewrite Hv.
  pose proof (updated_identity e user newStatus notes v Hrv) as Hident.
  unfold Store.identity in Hident.
  injection Hident as Hid Hrm _ _ _.
  destruct (findOneByRoom_findById _ _ _ Hfind) as [w Hw].
  split.
  - unfold findOneByRoom in *. cbn [videoSessions set_videoSessions].
    eapply find_replaceById; [done| |done]. rewrite Hrm, Hv.
    apply String.eqb_refl.
  - unfold findById in *. cbn [videoSessions set_videoSessions].
    rewrite <- Hid. eapply findById_replaceById; [|done]. by rewrite Hid.
Qed.

(** X1. Activating a session sets [startTime] to the clock only when it
    has none: after two successive updates to [active] by participants the
    start time is still the one the first update left. *)
Theorem activation_keeps_first_startTime
    e1 e2 u1 u2 (room : string) n1 n2 db v :
  Js.truthy room = true →
  findOneByRoom room db = Some v →
  isParty (VideoSession.patientId v) (VideoSession.therapistId v) u1 = true →
  isParty (VideoSession.patientId v) (VideoSession.therapistId v) u2 = true →
  let out1 := run (updateSessionStatus e1 u1 room "active" n1) db in
  let out2 := run (updateSessionStatus e2 u2 room "active" n2) (snd out1) in
  code (fst out1) = 200%nat ∧ code (fst out2) = 200%nat
  ∧ ∃ v1 v2,
      findOneByRoom room (snd out1) = Some v1
      ∧ findOneByRoom room (snd out2) = Some v2
      ∧ VideoSession.startTime v1
        = Some (default (now e1) (VideoSession.startTime v))
      ∧ VideoSession.startTime v2 = VideoSession.startTime v1
      ∧ VideoSession.status v2 = "active".
Proof.
  intros Hroom Hfind Hp1 Hp2 out1 out2.
  destruct (updateSessionStatus_found e1 u1 room "active" n1 db v)
    as (Hc1 & Hf1 & _); [done..|by right|done|].
  fold out1 in Hc1, Hf1.
  set (v1 := updated e1 u1 "active" n1 v) in *.
  pose proof (find_Some _ _ _ Hfind) as [_ Hv]. cbv beta in Hv.
  apply eqb_true in Hv.
  assert (Js.truthy (VideoSession.roomId v) = true) as Hrv by by rewrite Hv.
  pose proof (updated_identity e1 u1 "active" n1 v Hrv) as Hident.
  unfold Store.identity in Hident. fold v1 in Hident.
  injection Hident as _ _ Hpat Hther _.
  destruct (updateSessionStatus_found e2 u2 room "active" n2 (snd out1) v1)
    as (Hc2 & Hf2 & _); [done|done|by rewrite Hpat, Hther|by right|done|].
  fold out2 in Hc2, Hf2.
  split; [done|]. split; [done|].
  exists v1, (updated e2 u2 "active" n2 v1). split; [done|]. split; [done|].
  assert (∀ e u n w,
            VideoSession.startTime (updated e u "active" n w)
            = Some (default (now e) (VideoSession.startTime w))
            ∧ VideoSession.status (updated e u "active" n w) = "active")
    as Hstart.
  { intros e u n w. unfold updated.
    destruct (preSave_fields (now e) (random e)
                (applyNotes u n (applyStatus e "active" w)))
      as (_ & -> & _ & _ & -> & _).
    destruct (applyNotes_fields u n (applyStatus e "active" w))
      as (_ & -> & _ & _ & _ & -> & _).
    by destruct (applyStatus_fields e "active" w)
      as (_ & -> & _ & _ & _ & -> & _). }
  destruct (Hstart e1 u1 n1 v) as [Hs1 _].
  destruct (Hstart e2 u2 n2 v1) as [Hs2 Hst2].
  fold v1 in Hs1. split; [done|]. split; [|done].
  by rewrite Hs2, Hs1.
Qed.

Lemma activation_keeps_first_startTime_witness :
  Js.truthy Scenario.room1 = true
  ∧ ∃ v2,
      findOneByRoom Scenario.room1
        (snd (run (updateSessionStatus (Scenario.at_ 9000) Scenario.asPatient
                     Scenario.room1 "active" None)
                (snd (run (updateSessionStatus (Scenario.at_ 2000)
                             Scenario.asTherapist Scenario.room1 "active" None)
                        Scenario.db1)))) = Some v2
      ∧ VideoSession.startTime v2 = Some 2000.
Proof.
  split; [reflexivity|].
  destruct (activation_keeps_first_startTime (Scenario.at_ 2000)
              (Scenario.at_ 9000) Scenario.asTherapist Scenario.asPatient
              Scenario.room1 None None Scenario.db1
              (Scenario.session "waiting" None None None))
    as (_ & _ & v1 & v2 & _ & Hf2 & Hs1 & Hs2 & _); try reflexivity.
  exists v2. split; [exact Hf2|]. by rewrite Hs2, Hs1.
Defined.

Lemma updated_times e user newStatus notes v :
  let v' := updated e user newStatus notes v in
  VideoSession.endTime v'
    = (if String.eqb newStatus "ended" then Some (now e)
       else VideoSession.endTime v)
  ∧ VideoSession.duration v'
    = (if String.eqb newStatus "ended"
       then match VideoSession.startTime v with
            | Some start => Some ((now e - start) / 1000)
            | None => VideoSession.duration v
            end
       else VideoSession.duration v)
  ∧ VideoSession._id v' = VideoSession._id v.
Proof.
  unfold updated.
  destruct (preSave_fields (now e) (random e)
              (applyNotes user notes (applyStatus e newStatus v)))
    as (-> & _ & _ & _ & _ & -> & -> & _).
  destruct (applyNotes_fields user notes (applyStatus e newStatus v))
    as (-> & _ & _ & _ & _ & _ & -> & ->).
  by destruct (applyStatus_fields e newStatus v)
    as (-> & _ & _ & _ & _ & _ & -> & ->).
Qed.

(** X2. Ending a session stamps [endTime] with the clock. When the session
    was started the duration is the whole number of seconds elapsed since
    [startTime], rounded down; when it never was, the duration is left as
    it is. *)
Theorem ending_computes_duration e user (room : string) notes db v :
  findOneByRoom room db = Some v →
  isParty (VideoSession.patientId v) (VideoSession.therapistId v) user = true →
  appointmentWriteFails e = false →
  let out := run (updateSessionStatus e user room "ended" notes) db in
  ∃ v', findById (VideoSession._id v) (snd out) = Some v'
        ∧ VideoSession.status v' = "ended"
        ∧ VideoSession.endTime v' = Some (now e)
        ∧ match VideoSession.startTime v with
          | Some start =>
              ∃ d, VideoSession.duration v' = Some d
                   ∧ 1000 * d ≤ now e - start < 1000 * d + 1000
          | None => VideoSession.duration v' = VideoSession.duration v
          end.
Proof.
  intros Hfind Hparty Hstore out. unfold out.
  rewrite (updateSessionStatus_ok e user room "ended" notes db v)
    by (auto; by right).
  destruct (findOneByRoom_findById _ _ _ Hfind) as [w Hw].
  destruct (updated_times e user "ended" notes v) as (Hend & Hdur & Hid).
  destruct (updated_fields e user "ended" notes v) as (_ & Hst & _).
  exists (updated e user "ended" notes v). cbn [snd].
  split; [|split; [done|split; [done|]]].
  - unfold findById in *. cbn [videoSessions set_videoSessions].
    rewrite <- Hid. eapply findById_replaceById; [|done]. by rewrite Hid.
  - rewrite Hdur. cbn [String.eqb Ascii.eqb Bool.eqb].
    destruct (VideoSession.startTime v) as [start|]; [|done].
    eexists. split; [done|].
    pose proof (Z.div_mod (now e - start) 1000 ltac:(lia)).
    pose proof (Z.mod_pos_bound (now e - start) 1000 ltac:(lia)). lia.
Qed.

Lemma ending_computes_duration_witness :
  appointmentWriteFails (Scenario.at_ 1802999) = false
  ∧ ∃ v', findById Scenario.sessionOid
            (snd (run (updateSessionStatus (Scenario.at_ 1802999)
                         Scenario.asPatient Scenario.room1 "ended" None)
                    Scenario.dbActive)) = Some v'
          ∧ VideoSession.duration v' = Some 1800.
Proof.
  split; [reflexivity|].
  destruct (ending_computes_duration (Scenario.at_ 1802999) Scenario.asPatient
              Scenario.room1 None Scenario.dbActive
              (Scenario.session "active" (Some 2000) None None))
    as (v' & Hf & _ & _ & d & Hd & Hlo & Hhi); try reflexivity.
  exists v'. split; [exact Hf|]. rewrite Hd. f_equal.
  change (now (Scenario.at_ 1802999)) with 1802999 in *. lia.
Defined.


(** X4. A caller who is neither the patient nor the therapist of a session
    is answered 403 by the status update and by the join, whatever the
    caller's role, and nothing is stored. *)
Theorem stranger_cannot_update_or_join
    e user (room newStatus : string) notes db v :
  findOneByRoom room db = Some v →
  isParty (VideoSession.patientId v) (VideoSession.therapistId v) user
    = false →
  run (updateSessionStatus e user room newStatus notes) db
    = (status 403 "Access denied", db)
  ∧ run (joinVideoSession e user room) db = (status 403 "Access denied", db).
Proof.
  intros Hfind Hparty. split.
  - unfold updateSessionStatus, run. by rewrite bind_query, Hfind, Hparty.
  - unfold joinVideoSession, run. by rewrite bind_query, Hfind, Hparty.
Qed.

Lemma stranger_cannot_update_or_join_witness :
  isParty Scenario.patient Scenario.therapist Scenario.asAdmin = false
  ∧ run (updateSessionStatus (Scenario.at_ 3000) Scenario.asAdmin
           Scenario.room1 "cancelled" None) Scenario.db1
    = (status 403 "Access denied", Scenario.db1).
Proof.
  split; [reflexivity|].
  eapply (stranger_cannot_update_or_join (Scenario.at_ 3000) Scenario.asAdmin
            Scenario.room1 "cancelled" None Scenario.db1).
  - reflexivity.
  - reflexivity.
Defined.

(** X5. For a room id no stored session has, reading, updating and joining
    all answer 404 and store nothing. *)
Theorem unknown_room_not_found e user (room newStatus : string) notes db :
  findOneByRoom room db = None →
  run (VideoReader.getVideoSession user room) db
    = (status 404 "Video session not found", db)
  ∧ run (updateSessionStatus e user room newStatus notes) db
    = (status 404 "Video session not found", db)
  ∧ run (joinVideoSession e user room) db
    = (status 404 "Video session not found", db).
Proof.
  intros Hfind. repeat split.
  - unfold VideoReader.getVideoSession, run. by rewrite bind_query, Hfind.
  - unfold updateSessionStatus, run. by rewrite bind_query, Hfind.
  - unfold joinVideoSession, run. by rewrite bind_query, Hfind.
Qed.

Lemma unknown_room_not_found_witness :
  findOneByRoom "room_0_none" Scenario.db1 = None
  ∧ run (joinVideoSession (Scenario.at_ 3000) Scenario.asPatient "room_0_none")
      Scenario.db1
    = (status 404 "Video session not found", Scenario.db1).
Proof.
  split; [reflexivity|].
  apply (unknown_room_not_found (Scenario.at_ 3000) Scenario.asPatient
           "room_0_none" "active" None Scenario.db1).
  reflexivity.
Defined.

Lemma updated_notes e user newStatus notes v :
  let v' := updated e user newStatus notes v in
  VideoSession.therapistNotes v'
    = (if Js.truthy_opt notes && String.eqb (role user) "therapist"
       then notes else VideoSession.therapistNotes v)
  ∧ VideoSession.patientFeedback v'
    = (if Js.truthy_opt notes && negb (String.eqb (role user) "therapist")
       then notes else VideoSession.patientFeedback v).
Proof.
  unfold updated.
  destruct (preSave_parties (now e) (random e)
              (applyNotes user notes (applyStatus e newStatus v)))
    as (_ & _ & -> & -> & _).
  destruct (applyStatus_parties e newStatus v) as (_ & _ & Htn & Hpf).
  unfold applyNotes.
  destruct notes as [s|]; cbn [Js.truthy_opt]; [|by rewrite Htn, Hpf].
  destruct (Js.truthy s), (String.eqb (role user) "therapist");
    cbn [andb negb VideoSession.therapistNotes VideoSession.patientFeedback
         VideoSession.with_therapistNotes VideoSession.with_patientFeedback
         from_option Datatypes.id]; by rewrite ?Htn, ?Hpf.
Qed.

(** X6. Notes sent with a status update go to one field by the caller's
    role: a therapist's to [therapistNotes], anyone else's to
    [patientFeedback]; the other field keeps its value, and empty or
    absent notes change neither. *)
Theorem notes_follow_caller_role
    e user (room newStatus : string) notes db v :
  findOneByRoom room db = Some v →
  isParty (VideoSession.patientId v) (VideoSession.therapistId v) user = true →
  VideoSession.status v = newStatus ∨ validStatus newStatus = true →
  (newStatus = "ended" → appointmentWriteFails e = false) →
  let out := run (updateSessionStatus e user room newStatus notes) db in
  ∃ v', findById (VideoSession._id v) (snd out) = Some v'
        ∧ VideoSession.therapistNotes v'
          = (if Js.truthy_opt notes && String.eqb (role user) "therapist"
             then notes else VideoSession.therapistNotes v)
        ∧ VideoSession.patientFeedback v'
          = (if Js.truthy_opt notes
                && negb (String.eqb (role user) "therapist")
             then notes else VideoSession.patientFeedback v).
Proof.
  intros Hfind Hparty Hvalid Hstore out. unfold out.
  rewrite (updateSessionStatus_ok e user room newStatus notes db v) by done.
  destruct (findOneByRoom_findById _ _ _ Hfind) as [w Hw].
  destruct (updated_times e user newStatus notes v) as (_ & _ & Hid).
  exists (updated e user newStatus notes v). cbn [snd].
  split; [|apply updated_notes].
  unfold findById in *. cbn [videoSessions set_videoSessions].
  rewrite <- Hid. eapply findById_replaceById; [|done]. by rewrite Hid.
Qed.

Lemma notes_follow_caller_role_witness :
  ∃ v', findById Scenario.sessionOid
          (snd (run (updateSessionStatus (Scenario.at_ 4000)
                       Scenario.asPatient Scenario.room1 "active"
                       (Some "felt heard")) Scenario.dbActive)) = Some v'
        ∧ VideoSession.patientFeedback v' = Some "felt heard"
        ∧ VideoSession.therapistNotes v' = None.
Proof.
  destruct (notes_follow_caller_role (Scenario.at_ 4000) Scenario.asPatient
              Scenario.room1 "active" (Some "felt heard") Scenario.dbActive
              (Scenario.session "active" (Some 2000) None None))
    as (v' & Hf & Htn & Hpf).
  - reflexivity.
  - reflexivity.
  - left. reflexivity.
  - discriminate.
  - exists v'. split; [exact Hf|]. split; [exact Hpf | exact Htn].
Defined.

(** X7. A status outside the schema's list, different from the stored one,
    is refused when the session is saved: the answer is 500 and nothing is
    stored. *)
Theorem unknown_status_refused e user (room newStatus : string) notes db v :
  findOneByRoom room db = Some v →
  isParty (VideoSession.patientId v) (VideoSession.therapistId v) user = true →
  validStatus newStatus = false →
  VideoSession.status v ≠ newStatus →
  run (updateSessionStatus e user room newStatus notes) db
  = (status 500 "Server error", db).
Proof.
  intros Hfind Hparty Hbad Hne.
  destruct (updateSessionStatus_cases e user room newStatus notes db)
    as [[Hnone _]|(v' & Hfind' & [[Hp _]|(_ & [(Hended & _)|[(_ & _ & Hout)
         |([Hsame|Hok] & _)]])])]; try congruence.
  subst. by vm_compute in Hbad.
Qed.

Lemma unknown_status_refused_witness :
  validStatus "paused" = false
  ∧ run (updateSessionStatus (Scenario.at_ 4000) Scenario.asPatient
           Scenario.room1 "paused" None) Scenario.dbActive
    = (status 500 "Server error", Scenario.dbActive).
Proof.
  split; [reflexivity|].
  eapply (unknown_status_refused (Scenario.at_ 4000) Scenario.asPatient
            Scenario.room1 "paused" None Scenario.dbActive).
  - reflexivity.
  - reflexivity.
  - reflexivity.
  - discriminate.
Defined.

(** ** Reading and joining a session *)

(** X8. Reading a session never writes. With the patient and the therapist
    of the session on record, it answers 200 with the session to the
    patient, the therapist and any admin, and 403 to everyone else. *)
Theorem session_readable_by_parties_and_admin user (room : string) db v :
  findOneByRoom room db = Some v →
  is_Some (users db !! VideoSession.patientId v) →
  is_Some (users db !! VideoSession.therapistId v) →
  run (VideoReader.getVideoSession user room) db
  = (if isParty (VideoSession.patientId v) (VideoSession.therapistId v) user
        || String.eqb (role user) "admin"
     then mkResponse 200 "" (Some (PSession v))
     else status 403 "Access denied", db).
Proof.
  intros Hfind Hp Ht. unfold VideoReader.getVideoSession, run.
  rewrite bind_query, Hfind. cbv beta iota. rewrite bind_query.
  rewrite !bool_decide_true by done. cbn [andb negb]. cbv zeta.
  unfold isParty.
  by destruct (String.eqb (VideoSession.patientId v) (id user)),
    (String.eqb (VideoSession.therapistId v) (id user)),
    (String.eqb (role user) "admin").
Qed.

Lemma session_readable_by_parties_and_admin_witness :
  run (VideoReader.getVideoSession Scenario.asAdmin Scenario.room1) Scenario.db1
    = (mkResponse 200 ""
         (Some (PSession (Scenario.session "waiting" None None None))),
       Scenario.db1)
  ∧ run (VideoReader.getVideoSession Scenario.asStranger Scenario.room1)
      Scenario.db1
    = (status 403 "Access denied", Scenario.db1).
Proof.
  split.
  - apply (session_readable_by_parties_and_admin Scenario.asAdmin
             Scenario.room1 Scenario.db1
             (Scenario.session "waiting" None None None));
      [reflexivity | by eexists | by eexists].
  - apply (session_readable_by_parties_and_admin Scenario.asStranger
             Scenario.room1 Scenario.db1
             (Scenario.session "waiting" None None None));
      [reflexivity | by eexists | by eexists].
Defined.

(** X9. The first join of a participant appends one entry for the caller,
    stamped with the clock, after the entries already there; the session
    keeps its status and the answer counts one participant more. *)
Theorem first_join_appends_entry e user (room : string) db v :
  findOneByRoom room db = Some v →
  isParty (VideoSession.patientId v) (VideoSession.therapistId v) user = true →
  Js.find (hasUserId (id user)) (VideoSession.participants v) = None →
  let out := run (joinVideoSession e user room) db in
  ∃ v', findById (VideoSession._id v) (snd out) = Some v'
        ∧ VideoSession.participants v'
          = (VideoSession.participants v ++ [joining e user])%list
        ∧ VideoSession.status v' = VideoSession.status v
        ∧ fst out
          = json "Joined video session successfully"
              (PJoined (VideoSession.roomId v') (VideoSession.status v)
                       (S (length (VideoSession.participants v)))).
Proof.
  intros Hfind Hparty Hnew out. unfold out.
  rewrite (joinVideoSession_ok e user room db v Hfind Hparty).
  destruct (findOneByRoom_findById _ _ _ Hfind) as [w Hw].
  exists (joined e user v). cbn [fst snd].
  assert (VideoSession._id (joined e user v) = VideoSession._id v
          ∧ VideoSession.status (joined e user v) = VideoSession.status v
          ∧ VideoSession.participants (joined e user v)
            = (VideoSession.participants v ++ [joining e user])%list)
    as (Hid & Hst & Hps).
  { unfold joined.
    destruct (preSave_fields (now e) (random e)
                (VideoSession.with_participants
                   (touchParticipant e user (VideoSession.participants v)) v))
      as (-> & -> & _ & -> & _).
    cbn [VideoSession._id VideoSession.status VideoSession.participants
         VideoSession.with_participants].
    unfold touchParticipant.
    apply findIndex_find in Hnew. by rewrite Hnew. }
  split; [|split; [done|split; [done|]]].
  - rewrite <- Hid. apply findById_saved with w. by rewrite Hid.
  - rewrite Hst, Hps, length_app. cbn [length].
    by rewrite Nat.add_1_r.
Qed.

Lemma first_join_appends_entry_witness :
  Js.find (hasUserId Scenario.therapist)
    [Participant.mk Scenario.patient (Some 1000) None None] = None
  ∧ ∃ v', findById Scenario.sessionOid
            (snd (run (joinVideoSession (Scenario.at_ 1500)
                         Scenario.asTherapist Scenario.room1) Scenario.db1))
          = Some v'
          ∧ VideoSession.participants v'
            = [Participant.mk Scenario.patient (Some 1000) None None;
               Participant.mk Scenario.therapist (Some 1500) None None].
Proof.
  split; [reflexivity|].
  destruct (first_join_appends_entry (Scenario.at_ 1500) Scenario.asTherapist
              Scenario.room1 Scenario.db1
              (Scenario.session "waiting" None None None))
    as (v' & Hf & Hps & _); try reflexivity.
  exists v'. split; [exact Hf | exact Hps].
Defined.

(** ** Consistency of the stored sessions *)

Lemma NoDup_fmap_eq {A B} (f : A → B) (l : list A) x y :
  NoDup (f <$> l) → x ∈ l → y ∈ l → f x = f y → x = y.
Proof.
  induction l as [|z l IH]; intros Hnd Hx Hy Hf.
  - by apply elem_of_nil in Hx.
  - rewrite fmap_cons in Hnd. apply NoDup_cons in Hnd as [Hz Hnd].
    apply elem_of_cons in Hx as [->|Hx], Hy as [->|Hy]; auto.
    + destruct Hz. rewrite Hf. by apply list_elem_of_fmap_2.
    + destruct Hz. rewrite <- Hf. by apply list_elem_of_fmap_2.
Qed.

(** Overwriting a session by one that agrees with it on a projection does
    not change that projection of the collection. *)
Lemma replaceById_proj {B} (f : VideoSession.t → B) v v' l :
  NoDup (VideoSession._id <$> l) →
  v ∈ l →
  VideoSession._id v' = VideoSession._id v →
  f v' = f v →
  f <$> replaceById v' l = f <$> l.
Proof.
  intros Hnd Hv Hid Hf. unfold replaceById. rewrite <- list_fmap_compose.
  apply list_fmap_ext. intros i w Hw. cbn.
  destruct (String.eqb (VideoSession._id w) (VideoSession._id v')) eqn:Heq;
    [|done].
  apply eqb_true in Heq. rewrite Hf. f_equal.
  apply (NoDup_fmap_eq VideoSession._id l); [done|done| |congruence].
  by eapply list_elem_of_lookup_2.
Qed.

Lemma identity_fields v v' :
  Store.identity v' = Store.identity v →
  VideoSession._id v' = VideoSession._id v
  ∧ VideoSession.roomId v' = VideoSession.roomId v
  ∧ VideoSession.appointmentId v' = VideoSession.appointmentId v.
Proof. unfold Store.identity. intros [= -> -> _ _ ->]. done. Qed.

Lemma consistent_replace v v' l db db' :
  Store.consistent db →
  videoSessions db = l →
  v ∈ l →
  Store.identity v' = Store.identity v →
  videoSessions db' = replaceById v' l →
  Store.consistent db'
  ∧ Store.identity <$> videoSessions db' = Store.identity <$> videoSessions db.
Proof.
  intros (Hids & Hrooms & Happs & Hassigned) <- Hv Hident Hrep.
  destruct (identity_fields _ _ Hident) as (Hid & Hroom & Happ).
  split; [|by rewrite Hrep; apply replaceById_proj with v].
  unfold Store.consistent, roomsAssigned in *. rewrite Hrep.
  rewrite !(replaceById_proj _ v v') by done.
  repeat split; try done.
  rewrite Forall_forall in Hassigned.
  unfold replaceById. apply Forall_fmap, Forall_forall. intros w Hw. cbn.
  destruct (String.eqb _ _); [|by apply Hassigned].
  rewrite Hroom. by apply Hassigned.
Qed.

Lemma consistent_append v db db' :
  Store.consistent db →
  taken v db = false →
  Js.truthy (VideoSession.roomId v) = true →
  findOneByAppointment (VideoSession.appointmentId v) db = None →
  videoSessions db' = (videoSessions db ++ [v])%list →
  Store.consistent db'
  ∧ Store.identity <$> videoSessions db'
    = ((Store.identity <$> videoSessions db) ++ [Store.identity v])%list.
Proof.
  intros (Hids & Hrooms & Happs & Hassigned) Htaken Hroom Hnone Happ.
  split; [|by rewrite Happ, fmap_app].
  assert (∀ w, w ∈ videoSessions db →
               VideoSession._id w ≠ VideoSession._id v
               ∧ VideoSession.roomId w ≠ VideoSession.roomId v
               ∧ VideoSession.appointmentId w ≠ VideoSession.appointmentId v)
    as Hfresh.
  { intros w Hw. unfold taken in Htaken.
    assert (String.eqb (VideoSession._id w) (VideoSession._id v)
            || String.eqb (VideoSession.roomId w) (VideoSession.roomId v)
            = false) as Hor.
    { apply not_true_is_false. intros Hor.
      rewrite <- not_true_iff_false in Htaken. apply Htaken.
      apply existsb_exists. exists w. split; [by apply list_elem_of_In|done]. }
    apply orb_false_iff in Hor as [H1 H2].
    apply eqb_false in H1, H2. repeat split; try done.
    unfold findOneByAppointment in Hnone.
    eapply find_None in Hnone; [|exact Hw]. by apply eqb_false in Hnone. }
  unfold Store.consistent, roomsAssigned in *. rewrite Happ, !fmap_app.
  cbn [fmap list_fmap].
  repeat split.
  - apply NoDup_app. repeat split; [done| |apply NoDup_singleton].
    intros x Hx Hx'. apply list_elem_of_singleton in Hx'. subst.
    apply list_elem_of_fmap in Hx as (w & Hw & Hin).
    by destruct (Hfresh w Hin) as (? & _).
  - apply NoDup_app. repeat split; [done| |apply NoDup_singleton].
    intros x Hx Hx'. apply list_elem_of_singleton in Hx'. subst.
    apply list_elem_of_fmap in Hx as (w & Hw & Hin).
    by destruct (Hfresh w Hin) as (_ & ? & _).
  - apply NoDup_app. repeat split; [done| |apply NoDup_singleton].
    intros x Hx Hx'. apply list_elem_of_singleton in Hx'. subst.
    apply list_elem_of_fmap in Hx as (w & Hw & Hin).
    by destruct (Hfresh w Hin) as (_ & _ & ?).
  - apply Forall_app. split; [done|]. by apply Forall_singleton.
Qed.

(** Saving new participants on a session keeps its identity. *)
Lemma with_participants_identity t r ps v :
  Js.truthy (VideoSession.roomId v) = true →
  Store.identity
    (VideoSession.preSave t r (VideoSession.with_participants ps v))
  = Store.identity v.
Proof. intros H. by rewrite preSave_id. Qed.

Lemma consistent_elem_truthy db v :
  Store.consistent db → v ∈ videoSessions db →
  Js.truthy (VideoSession.roomId v) = true.
Proof.
  intros (_ & _ & _ & Hassigned) Hv. unfold roomsAssigned in Hassigned.
  rewrite Forall_forall in Hassigned. by apply Hassigned.
Qed.

Lemma updateSessionStatus_consistent e user room newStatus notes db :
  Store.consistent db →
  let db' := snd (run (updateSessionStatus e user room newStatus notes) db) in
  Store.consistent db'
  ∧ Store.identity <$> videoSessions db' = Store.identity <$> videoSessions db.
Proof.
  intros Hdb db'.
  destruct (updateSessionStatus_sessions e user room newStatus notes db)
    as [Hsame|(v & Hv & Hrep)]; fold db' in Hsame || fold db' in Hrep.
  - split; [|by rewrite Hsame]. unfold Store.consistent, roomsAssigned in *.
    by rewrite Hsame.
  - eapply consistent_replace; [done|done|exact Hv| |exact Hrep].
    apply updated_identity. by apply consistent_elem_truthy with db.
Qed.

Lemma joinVideoSession_consistent e user room db :
  Store.consistent db →
  let db' := snd (run (joinVideoSession e user room) db) in
  Store.consistent db'
  ∧ Store.identity <$> videoSessions db' = Store.identity <$> videoSessions db.
Proof.
  intros Hdb db'.
  destruct (joinVideoSession_sessions e user room db)
    as [Hsame|(v & Hv & Hrep)]; fold db' in Hsame || fold db' in Hrep.
  - split; [|by rewrite Hsame]. unfold Store.consistent, roomsAssigned in *.
    by rewrite Hsame.
  - eapply consistent_replace; [done|done|exact Hv| |exact Hrep].
    apply with_participants_identity. by apply consistent_elem_truthy with db.
Qed.

Lemma withCaller_taken e user v db :
  Js.truthy (VideoSession.roomId v) = true →
  taken (withCaller e user v) db = taken v db.
Proof.
  intros Hroom. unfold taken, withCaller. by rewrite preSave_id.
Qed.

Lemma createVideoSession_consistent e user aid db :
  Store.consistent db →
  let db' := snd (run (createVideoSession e user (Some aid)) db) in
  Store.consistent db'
  ∧ ∃ new, Store.identity <$> videoSessions db'
           = ((Store.identity <$> videoSessions db) ++ new)%list
           ∧ (length new ≤ 1)%nat.
Proof.
  intros Hdb db'.
  destruct (createVideoSession_guarded e user aid db)
    as [(a & Haid & Ha)|[Hsame _]].
  - unfold db'.
    rewrite (createVideoSession_admitted e user aid db a Haid Ha).
    destruct (findOneByAppointment aid db) as [v|] eqn:Hfind.
    + destruct (Js.find _ (VideoSession.participants v)) eqn:Hpart.
      * split; [done|]. exists []. rewrite app_nil_r. split; [done | cbn; lia].
      * assert (v ∈ videoSessions db) as Hv by by eapply find_elem_of.
        assert (Store.identity (withCaller e user v) = Store.identity v)
          as Hident.
        { apply with_participants_identity.
          by apply consistent_elem_truthy with db. }
        destruct (consistent_replace v (withCaller e user v)
                    (videoSessions db) db
                    (set_videoSessions
                       (replaceById (withCaller e user v) (videoSessions db))
                       db) Hdb eq_refl Hv Hident eq_refl) as [Hc Hi].
        split; [done|]. exists []. cbn [snd]. rewrite app_nil_r.
        split; [done | cbn; lia].
    + destruct (fresh_fields e aid a) as (Hap & _ & Hroom).
      destruct (taken (fresh e aid a) db) eqn:Htaken.
      * split; [done|]. exists []. rewrite app_nil_r. split; [done | cbn; lia].
      * destruct (withCaller_fields e user (fresh e aid a))
          as (_ & _ & Hap' & _ & Hroom' & _).
        assert (taken (withCaller e user (fresh e aid a)) db = false) as Ht
          by by rewrite withCaller_taken.
        assert (findOneByAppointment
                  (VideoSession.appointmentId
                     (withCaller e user (fresh e aid a))) db = None) as Hn
          by by rewrite Hap', Hap.
        destruct (consistent_append (withCaller e user (fresh e aid a)) db
                    (set_videoSessions
                       (videoSessions db ++ [withCaller e user (fresh e aid a)])
                       db) Hdb Ht Hroom' Hn eq_refl) as [Hc Hi].
        split; [done|]. eexists. split; [exact Hi|]. cbn; lia.
  - fold db' in Hsame. rewrite Hsame. split; [done|].
    exists []. rewrite app_nil_r. split; [done | cbn; lia].
Qed.

(** ** Appointment status and the session it opens *)

Import AppointmentController.

Lemma answer_eq {A} (body : Handler A) db a db' :
  body db = (inl a, db') → answer body db = (inl a, db').
Proof. unfold answer. by intros ->. Qed.

Lemma answer_replied {A} (body : Handler A) db r db' :
  body db = (inr (Replied r), db') → answer body db = (inr r, db').
Proof. unfold answer. by intros ->. Qed.

Lemma answer_thrown {A} (body : Handler A) db db' :
  body db = (inr Thrown, db') →
  answer body db = (inr (status 500 "Server error"), db').
Proof. unfold answer. by intros ->. Qed.

Lemma opened_fields e aid a :
  VideoSession._id (opened e aid a) = objectId e
  ∧ VideoSession.patientId (opened e aid a) = Appointment.patientId a
  ∧ VideoSession.therapistId (opened e aid a) = Appointment.therapistId a
  ∧ VideoSession.appointmentId (opened e aid a) = aid
  ∧ VideoSession.status (opened e aid a) = "waiting"
  ∧ VideoSession.participants (opened e aid a) = []
  ∧ VideoSession.startTime (opened e aid a) = None
  ∧ Js.truthy (VideoSession.roomId (opened e aid a)) = true.
Proof. by repeat split. Qed.

(** Every outcome of an appointment status update. *)
Lemma updateAppointmentStatus_cases e user aid newStatus reason db :
  let out := answer (updateAppointmentStatus e user aid newStatus reason) db in
  (appointments db !! aid = None
   ∧ out = (inr (status 404 "Appointment not found"), db))
  ∨ ∃ a, appointments db !! aid = Some a
    ∧ ((mayUpdate a user = false
        ∧ out = (inr (status 403 "Access denied"), db))
       ∨ (mayUpdate a user = true
          ∧ saveRejected e user a (Appointment.with_status newStatus a) reason
            = true
          ∧ out = (inr (status 500 "Server error"), db))
       ∨ (mayUpdate a user = true
          ∧ saveRejected e user a (Appointment.with_status newStatus a) reason
            = false
          ∧ let a' := Appointment.with_status newStatus a in
            let db1 := stored aid a' db in
            if String.eqb newStatus "confirmed"
               && String.eqb (Appointment.sessionType a) "video"
            then
              match findOneByAppointment aid db with
              | Some _ => out = (inl a', db1)
              | None =>
                  if taken (opened e aid a) db
                  then out = (inr (status 500 "Server error"), db1)
                  else out = (inl a',
                              set_videoSessions
                                (videoSessions db ++ [opened e aid a]) db1)
              end
            else out = (inl a', db1))).
Proof.
  intros out. unfold out, updateAppointmentStatus.
  destruct (appointments db !! aid) as [a|] eqn:Ha; cycle 1.
  { left. split; [done|]. apply answer_replied. by rewrite bind_query, Ha. }
  right. exists a. split; [done|].
  destruct (mayUpdate a user) eqn:Hmay; cycle 1.
  { left. split; [done|]. apply answer_replied.
    by rewrite bind_query, Ha, Hmay. }
  right.
  destruct (saveRejected e user a (Appointment.with_status newStatus a) reason)
    eqn:Hrej.
  { left. split; [done|]. split; [done|]. apply answer_thrown.
    rewrite bind_query, Ha, Hmay. cbn [negb]. cbv zeta.
    apply bind_stop. unfold AppointmentController.save. by rewrite Hrej. }
  right. split; [done|]. split; [done|]. cbv zeta.
  assert (AppointmentController.save e user aid a
            (Appointment.with_status newStatus a) reason db
          = (inl tt, stored aid (Appointment.with_status newStatus a) db))
    as Hsave.
  { unfold AppointmentController.save. by rewrite Hrej. }
  change (Appointment.sessionType (Appointment.with_status newStatus a))
    with (Appointment.sessionType a).
  destruct (String.eqb newStatus "confirmed"
            && String.eqb (Appointment.sessionType a) "video") eqn:Hcv.
  - destruct (findOneByAppointment aid db) as [v|] eqn:Hfind.
    + apply answer_eq. rewrite bind_query, Ha, Hmay. cbn [negb]. cbv zeta.
      rewrite (bind_eq _ _ _ _ _ Hsave).
      change (Appointment.sessionType (Appointment.with_status newStatus a))
        with (Appointment.sessionType a).
      rewrite Hcv. erewrite bind_eq; [reflexivity|].
      rewrite bind_query.
      change (findOneByAppointment aid (stored aid _ db))
        with (findOneByAppointment aid db).
      by rewrite Hfind.
    + assert (VideoController.saveNew e
                (VideoSession.new (objectId e) (Appointment.patientId a)
                   (Appointment.therapistId a) aid)
                (stored aid (Appointment.with_status newStatus a) db)
              = if taken (opened e aid a) db
                then (inr Thrown,
                      stored aid (Appointment.with_status newStatus a) db)
                else (inl (opened e aid a),
                      set_videoSessions
                        (videoSessions db ++ [opened e aid a])
                        (stored aid (Appointment.with_status newStatus a) db)))
        as Hnew.
      { rewrite saveNew_run by done. cbv zeta. fold (opened e aid a).
        change (taken (opened e aid a) (stored aid _ db))
          with (taken (opened e aid a) db).
        done. }
      destruct (taken (opened e aid a) db) eqn:Htaken.
      * apply answer_thrown. rewrite bind_query, Ha, Hmay. cbn [negb].
        cbv zeta. rewrite (bind_eq _ _ _ _ _ Hsave).
        change (Appointment.sessionType (Appointment.with_status newStatus a))
          with (Appointment.sessionType a).
        rewrite Hcv. apply bind_stop. rewrite bind_query.
        change (findOneByAppointment aid (stored aid _ db))
          with (findOneByAppointment aid db).
        rewrite Hfind. apply bind_stop. exact Hnew.
      * apply answer_eq. rewrite bind_query, Ha, Hmay. cbn [negb].
        cbv zeta. rewrite (bind_eq _ _ _ _ _ Hsave).
        change (Appointment.sessionType (Appointment.with_status newStatus a))
          with (Appointment.sessionType a).
        rewrite Hcv. erewrite bind_eq; [reflexivity|].
        rewrite bind_query.
        change (findOneByAppointment aid (stored aid _ db))
          with (findOneByAppointment aid db).
        rewrite Hfind. erewrite bind_eq; [reflexivity|]. exact Hnew.
  - apply answer_eq. rewrite bind_query, Ha, Hmay. cbn [negb]. cbv zeta.
    rewrite (bind_eq _ _ _ _ _ Hsave).
    change (Appointment.sessionType (Appointment.with_status newStatus a))
      with (Appointment.sessionType a).
    by rewrite Hcv.
Qed.





(** X12. An appointment status update writes no user, no message and no
    appointment but its own. It opens a session (one, appended) only when
    the new status is [confirmed], the appointment is of type video and no
    session exists for it; in every other case the stored sessions stay as
    they are. *)
Theorem sessions_opened_only_by_video_confirmation
    e user (aid newStatus : string) reason db :
  let out := answer (updateAppointmentStatus e user aid newStatus reason) db in
  users (snd out) = users db
  ∧ chats (snd out) = chats db
  ∧ (∀ other, other ≠ aid →
       appointments (snd out) !! other = appointments db !! other)
  ∧ (videoSessions (snd out) = videoSessions db
     ∨ (newStatus = "confirmed"
        ∧ ∃ a, appointments db !! aid = Some a
               ∧ Appointment.sessionType a = "video"
               ∧ findOneByAppointment aid db = None
               ∧ videoSessions (snd out)
                 = (videoSessions db ++ [opened e aid a])%list)).
Proof.
  intros out.
  destruct (updateAppointmentStatus_cases e user aid newStatus reason db)
    as [[_ Hout]|(a & Ha & [[_ Hout]|[(_ & _ & Hout)|(_ & _ & Hout)]])];
    fold out in Hout; try (rewrite Hout; cbn [snd]; by auto).
  assert (∀ other, other ≠ aid →
            appointments (stored aid (Appointment.with_status newStatus a) db)
              !! other = appointments db !! other) as Hother.
  { intros other Hne. cbn. by apply lookup_insert_ne. }
  cbv zeta in Hout.
  destruct (String.eqb newStatus "confirmed"
            && String.eqb (Appointment.sessionType a) "video") eqn:Hcv.
  - apply andb_true_iff in Hcv as [Hc Hv]. apply eqb_true in Hc, Hv.
    destruct (findOneByAppointment aid db) as [v|] eqn:Hfind.
    + rewrite Hout. cbn [snd]. repeat split; auto.
    + destruct (taken (opened e aid a) db).
      * rewrite Hout. cbn [snd]. repeat split; auto.
      * rewrite Hout. cbn [snd]. repeat split; auto.
        right. split; [done|]. exists a. done.
  - rewrite Hout. cbn [snd]. repeat split; auto.
Qed.



Lemma updateAppointmentStatus_consistent e user aid newStatus reason db :
  Store.consistent db →
  let db' := snd (answer (updateAppointmentStatus e user aid newStatus reason)
                    db) in
  Store.consistent db'
  ∧ ∃ new, Store.identity <$> videoSessions db'
           = ((Store.identity <$> videoSessions db) ++ new)%list
           ∧ (length new ≤ 1)%nat.
Proof.
  intros Hdb db'.
  assert (∀ d : DB, videoSessions d = videoSessions db →
            Store.consistent d
            ∧ ∃ new, Store.identity <$> videoSessions d
                     = ((Store.identity <$> videoSessions db) ++ new)%list
                     ∧ (length new ≤ 1)%nat) as Hsame.
  { intros d Hd. split.
    - unfold Store.consistent, roomsAssigned in *. by rewrite Hd.
    - exists []. rewrite app_nil_r, Hd. split; [done | cbn; lia]. }
  destruct (updateAppointmentStatus_cases e user aid newStatus reason db)
    as [[_ Hout]|(a & Ha & [[_ Hout]|[(_ & _ & Hout)|(_ & _ & Hout)]])];
    try (unfold db'; rewrite Hout; by apply Hsame).
  cbv zeta in Hout.
  destruct (String.eqb newStatus "confirmed"
            && String.eqb (Appointment.sessionType a) "video");
    [|unfold db'; rewrite Hout; by apply Hsame].
  destruct (findOneByAppointment aid db) as [v|] eqn:Hfind;
    [unfold db'; rewrite Hout; by apply Hsame|].
  destruct (taken (opened e aid a) db) eqn:Htaken;
    [unfold db'; rewrite Hout; by apply Hsame|].
  unfold db'. rewrite Hout. cbn [snd].
  destruct (opened_fields e aid a) as (_ & _ & _ & Hap & _ & _ & _ & Hroom).
  assert (findOneByAppointment (VideoSession.appointmentId (opened e aid a)) db
          = None) as Hn by by rewrite Hap.
  destruct (consistent_append (opened e aid a) db
              (set_videoSessions (videoSessions db ++ [opened e aid a])
                 (stored aid (Appointment.with_status newStatus a) db))
              Hdb Htaken Hroom Hn eq_refl) as [Hc Hi].
  split; [done|]. eexists. split; [exact Hi|]. cbn; lia.
Qed.

(** X14. A store in which session ids and room ids are unique, every
    session has its room id and no appointment has two sessions stays so
    under create-or-join, join, session status update and appointment
    status update, whatever their arguments and outcome. *)
Theorem handlers_keep_store_consistent
    e user (room aid newStatus : string) notes reason db :
  Store.consistent db →
  Store.consistent (snd (run (createVideoSession e user (Some aid)) db))
  ∧ Store.consistent (snd (run (joinVideoSession e user room) db))
  ∧ Store.consistent
      (snd (run (updateSessionStatus e user room newStatus notes) db))
  ∧ Store.consistent
      (snd (answer (updateAppointmentStatus e user aid newStatus reason) db)).
Proof.
  intros Hdb. split; [|split; [|split]].
  - exact (proj1 (createVideoSession_consistent e user aid db Hdb)).
  - exact (proj1 (joinVideoSession_consistent e user room db Hdb)).
  - exact (proj1 (updateSessionStatus_consistent e user room newStatus notes
                    db Hdb)).
  - exact (proj1 (updateAppointmentStatus_consistent e user aid newStatus
                    reason db Hdb)).
Qed.

Lemma scenario_db1_consistent : Store.consistent Scenario.db1.
Proof.
  repeat split; try apply NoDup_singleton. by apply Forall_singleton.
Qed.

Lemma handlers_keep_store_consistent_witness :
  Store.consistent Scenario.db1
  ∧ Store.consistent
      (snd (run (joinVideoSession (Scenario.at_ 1500) Scenario.asTherapist
                   Scenario.room1) Scenario.db1)).
Proof.
  split; [exact scenario_db1_consistent|].
  apply (handlers_keep_store_consistent (Scenario.at_ 1500)
           Scenario.asTherapist Scenario.room1 Scenario.videoAppointment
           "active" None None Scenario.db1 scenario_db1_consistent).
Defined.

(** X15. In a consistent store the identity of a session (its id, room id,
    patient, therapist and appointment) is never rewritten: a join and a
    status update leave the identities of all stored sessions as they are;
    a create-or-join and an appointment status update leave them as they
    are and add at most one session at the end. *)
Theorem session_identity_immutable
    e user (room aid newStatus : string) notes reason db :
  Store.consistent db →
  Store.identity <$>
    videoSessions (snd (run (joinVideoSession e user room) db))
  = Store.identity <$> videoSessions db
  ∧ Store.identity <$>
      videoSessions
        (snd (run (updateSessionStatus e user room newStatus notes) db))
    = Store.identity <$> videoSessions db
  ∧ (∃ new,
       Store.identity <$>
         videoSessions (snd (run (createVideoSession e user (Some aid)) db))
       = ((Store.identity <$> videoSessions db) ++ new)%list
       ∧ (length new ≤ 1)%nat)
  ∧ (∃ new,
       Store.identity <$>
         videoSessions
           (snd (answer (updateAppointmentStatus e user aid newStatus reason)
                   db))
       = ((Store.identity <$> videoSessions db) ++ new)%list
       ∧ (length new ≤ 1)%nat).
Proof.
  intros Hdb. split; [|split; [|split]].
  - exact (proj2 (joinVideoSession_consistent e user room db Hdb)).
  - exact (proj2 (updateSessionStatus_consistent e user room newStatus notes
                    db Hdb)).
  - exact (proj2 (createVideoSession_consistent e user aid db Hdb)).
  - exact (proj2 (updateAppointmentStatus_consistent e user aid newStatus
                    reason db Hdb)).
Qed.

Lemma session_identity_immutable_witness :
  Store.consistent Scenario.db1
  ∧ Store.identity <$>
      videoSessions
        (snd (run (updateSessionStatus (Scenario.at_ 2000) Scenario.asTherapist
                     Scenario.room1 "active" None) Scenario.db1))
    = Store.identity <$> videoSessions Scenario.db1.
Proof.
  split; [exact scenario_db1_consistent|].
  apply (session_identity_immutable (Scenario.at_ 2000) Scenario.asTherapist
           Scenario.room1 Scenario.videoAppointment "active" None None
           Scenario.db1 scenario_db1_consistent).
Defined.

(** ** Chat: marking and sending *)

Lemma markOne_idem e1 e2 conv reader m :
  markOne e2 conv reader (markOne e1 conv reader m) = markOne e1 conv reader m.
Proof.
  unfold markOne at 2 3. destruct (unreadFor conv reader m) eqn:Hu.
  - unfold markOne.
    replace (unreadFor conv reader (Chat.with_read (now e1) m)) with false;
      [done|].
    unfold unreadFor. cbn [Chat.isRead Chat.with_read negb].
    by rewrite andb_false_r.
  - unfold markOne. by rewrite Hu.
Qed.

Lemma markOne_unread e conv reader m :
  unreadFor conv reader (markOne e conv reader m) = false.
Proof.
  unfold markOne. destruct (unreadFor conv reader m) eqn:Hu; [|done].
  unfold unreadFor. cbn [Chat.isRead Chat.with_read negb].
  by rewrite andb_false_r.
Qed.

(** X16. Marking a conversation read twice is the same as marking it once:
    the second call answers 200 and leaves the database, read times
    included, as the first call left it. *)
Theorem markAsRead_idempotent e1 e2 user (conv : string) db :
  let db1 := snd (run (markAsRead e1 user conv) db) in
  run (markAsRead e2 user conv) db1
  = (status 200 "Messages marked as read", db1).
Proof.
  intros db1. unfold db1. rewrite !markAsRead_run. cbn [snd]. f_equal.
  unfold set_chats. cbn [users appointments videoSessions chats]. f_equal.
  rewrite <- list_fmap_compose. apply list_fmap_ext.
  intros i m _. cbn. apply markOne_idem.
Qed.

(** X17. Marking a conversation read answers 200 and leaves the reader no
    unread message in it. The messages it rewrites are exactly the unread
    ones of that conversation addressed to the caller, which become read
    at the clock; every other message, and every user, appointment and
    session, stays as it is. *)
Theorem markAsRead_scope e user (conv : string) db :
  let out := run (markAsRead e user conv) db in
  code (fst out) = 200%nat
  ∧ Store.unread conv (id user) (snd out) = []
  ∧ users (snd out) = users db
  ∧ appointments (snd out) = appointments db
  ∧ videoSessions (snd out) = videoSessions db
  ∧ length (chats (snd out)) = length (chats db)
  ∧ ∀ (i : nat) m, chats db !! i = Some m →
      chats (snd out) !! i
      = Some (if String.eqb (Chat.conversationId m) conv
                 && String.eqb (Chat.receiverId m) (id user)
                 && negb (Chat.isRead m)
              then Chat.with_read (now e) m else m).
Proof.
  intros out. unfold out. rewrite markAsRead_run. cbn [fst snd].
  repeat split.
  - unfold Store.unread. cbn [chats set_chats].
    induction (chats db) as [|m l IH]; [done|].
    cbn [fmap list_fmap List.filter]. by rewrite markOne_unread.
  - cbn. apply length_fmap.
  - intros i m Hm. cbn [chats set_chats]. by rewrite list_lookup_fmap, Hm.
Qed.

(** Every outcome of a send. *)
Lemma sendMessage_cases e user receiverId message messageType db :
  let out := run (sendMessage e user receiverId message messageType) db in
  (out = (status 400 "Please provide receiver ID and message", db)
   ∧ (Js.truthy_opt receiverId = false ∨ Js.truthy_opt message = false))
  ∨ ∃ receiver body,
      receiverId = Some receiver ∧ message = Some body
      ∧ Js.truthy receiver = true ∧ Js.truthy body = true
      ∧ ((out = (status 400 "Message too long (max 1000 characters)", db)
          ∧ (1000 < String.length body)%nat)
         ∨ ((String.length body ≤ 1000)%nat
            ∧ ((out = (status 404 "Receiver not found", db)
                ∧ users db !! receiver = None)
               ∨ (is_Some (users db !! receiver)
                  ∧ ((out
                      = (status 403
                           "You can only message your assigned therapist/patients",
                         db)
                      ∧ checkTherapeuticRelationship (id user) receiver db
                        = false
                      ∧ role user ≠ "admin")
                     ∨ ((checkTherapeuticRelationship (id user) receiver db
                           = true ∨ role user = "admin")
                        ∧ (out = (status 500 "Server error", db)
                           ∨ out
                             = (mkResponse 201 "Message sent successfully"
                                  (Some (PChat (sent e user receiver body
                                                  messageType))),
                                set_chats
                                  (chats db
                                     ++ [sent e user receiver body messageType])
                                  db)))))))).
Proof.
  intros out. unfold out.
  destruct receiverId as [receiver|]; cycle 1.
  { left. split; [done|]. by left. }
  destruct message as [body|]; cycle 1.
  { left. split; [|by right]. unfold sendMessage. cbv zeta.
    cbn [Js.truthy_opt]. by rewrite orb_true_r. }
  destruct (Js.truthy receiver) eqn:Hr; cycle 1.
  { left. split; [|by left]. unfold sendMessage. cbv zeta.
    cbn [Js.truthy_opt]. by rewrite Hr. }
  destruct (Js.truthy body) eqn:Hb; cycle 1.
  { left. split; [|by right]. unfold sendMessage. cbv zeta.
    cbn [Js.truthy_opt]. by rewrite Hr, Hb. }
  right. exists receiver, body. repeat (split; [done|]).
  destruct (1000 <? String.length body)%nat eqn:Hlen.
  { left. split; [|by apply Nat.ltb_lt]. unfold sendMessage. cbv zeta.
    cbn [Js.truthy_opt from_option Datatypes.id]. by rewrite Hr, Hb, Hlen. }
  right. split; [by apply Nat.ltb_ge|].
  destruct (users db !! receiver) as [ur|] eqn:Hu; cycle 1.
  { left. split; [|done]. unfold sendMessage. cbv zeta.
    cbn [Js.truthy_opt from_option Datatypes.id]. rewrite Hr, Hb, Hlen.
    cbn [negb orb]. apply run_replied.
    rewrite bind_query, Hu. by rewrite bool_decide_false by by intros [??]. }
  right. split; [by eexists|].
  destruct (negb (checkTherapeuticRelationship (id user) receiver db)
            && negb (String.eqb (role user) "admin")) eqn:Hrel.
  { left. apply andb_true_iff in Hrel as [Hrel Hrole].
    apply negb_true_iff in Hrel, Hrole. apply eqb_false in Hrole.
    split; [|done]. unfold sendMessage. cbv zeta.
    cbn [Js.truthy_opt from_option Datatypes.id]. rewrite Hr, Hb, Hlen.
    cbn [negb orb]. apply run_replied.
    rewrite bind_query, Hu, bool_decide_true by by eexists. cbn [negb].
    rewrite bind_query, Hrel.
    apply eqb_false in Hrole. by rewrite Hrole. }
  right.
  assert (checkTherapeuticRelationship (id user) receiver db = true
          ∨ role user = "admin") as Hok.
  { apply andb_false_iff in Hrel as [Hrel|Hrel];
      apply negb_false_iff in Hrel; [by left|right]. by apply eqb_true. }
  split; [done|].
  destruct (validMessageType (default "text" messageType)
            && negb (existsb (λ w, String.eqb (Chat._id w) (objectId e))
                             (chats db))) eqn:Hgood.
  { right. apply andb_true_iff in Hgood as [Hty Hex].
    apply negb_true_iff in Hex.
    apply sendMessage_ok;
      [done|done|by apply Nat.ltb_ge|by rewrite Hu; eexists|done|done|].
    intros m Hm Heq. rewrite <- not_true_iff_false in Hex. apply Hex.
    apply existsb_exists. exists m. split; [by apply list_elem_of_In|].
    by apply eqb_true. }
  left. unfold sendMessage. cbv zeta.
  cbn [Js.truthy_opt from_option Datatypes.id]. rewrite Hr, Hb, Hlen.
  cbn [negb orb]. apply run_thrown.
  rewrite bind_query, Hu, bool_decide_true by by eexists. cbn [negb].
  rewrite bind_query, Hrel.
  apply bind_stop. unfold saveNew. cbv zeta.
  fold (sent e user receiver body messageType).
  destruct (sent_fields e user receiver body messageType)
    as (Hid & _ & _ & Hbody & Htype & _).
  rewrite bind_query, Htype, Hbody, Hlen, Hid.
  destruct (validMessageType (default "text" messageType)); [|done].
  cbn [negb orb andb] in Hgood |- *. apply negb_false_iff in Hgood.
  by rewrite Hgood.
Qed.

(** X18. A send either answers 201 and appends exactly one message, from
    the caller to the receiver, unread, with a body of at most 1000
    characters and the conversation id of the pair, or it answers another
    code and leaves the database as it was. It never writes anything but
    messages. *)
Theorem sendMessage_stores_or_rejects
    e user receiverId message messageType db :
  let out := run (sendMessage e user receiverId message messageType) db in
  users (snd out) = users db
  ∧ appointments (snd out) = appointments db
  ∧ videoSessions (snd out) = videoSessions db
  ∧ ((code (fst out) ≠ 201%nat ∧ snd out = db)
     ∨ (code (fst out) = 201%nat
        ∧ ∃ receiver body m,
            receiverId = Some receiver ∧ message = Some body
            ∧ (String.length body ≤ 1000)%nat
            ∧ chats (snd out) = (chats db ++ [m])%list
            ∧ Chat.senderId m = id user
            ∧ Chat.receiverId m = receiver
            ∧ Chat.message m = body
            ∧ Chat.isRead m = false
            ∧ Chat.conversationId m
              = Chat.conversationIdOf (id user) receiver)).
Proof.
  intros out.
  destruct (sendMessage_cases e user receiverId message messageType db)
    as [[Hout _]|(receiver & body & -> & -> & _ & _ &
         [[Hout _]|(Hlen & [[Hout _]|(_ & [(Hout & _)|(_ & [Hout|Hout])])])])];
    fold out in Hout; rewrite Hout; cbn [fst snd];
    try (repeat split; try done; left; by split).
  repeat split; try done. right. split; [done|].
  exists receiver, body, (sent e user receiver body messageType).
  by repeat split.
Qed.



(** ** Chat: reading a conversation *)



(** Every outcome of reading a conversation. *)
Lemma getConversation_cases e user other pageNo limit db :
  run (getConversation e user other pageNo limit) db
  = if negb (checkTherapeuticRelationship (id user) other db)
       && negb (String.eqb (role user) "admin")
    then (status 403 "Access denied", db)
    else match page (Chat.conversationIdOf (id user) other)
                    ((pageNo - 1) * limit) limit db with
         | None => (status 500 "Server error", db)
         | Some msgs =>
             (mkResponse 200 ""
                (Some (PConversation (reverse msgs) pageNo limit
                         (Z.of_nat (length msgs) =? limit))),
              snd (run (markAsRead e user
                          (Chat.conversationIdOf (id user) other)) db))
         end.
Proof.
  unfold getConversation, run. rewrite bind_query.
  destruct (negb _ && negb _); [done|]. cbv zeta.
  rewrite bind_query. by destruct (page _ _ _ db).
Qed.





(** X22. A read that answers 200 marks the conversation read exactly as
    markAsRead of the derived conversation id would: both leave the same
    database, so a markAsRead after the read changes nothing. *)
Theorem conversation_read_marks_like_markAsRead
    e e' user (other : string) (pageNo limit : Z) db :
  let out := run (getConversation e user other pageNo limit) db in
  let conv := Chat.conversationIdOf (id user) other in
  code (fst out) = 200%nat →
  snd out = snd (run (markAsRead e user conv) db)
  ∧ Store.unread conv (id user) (snd out) = []
  ∧ snd (run (markAsRead e' user conv) (snd out)) = snd out.
Proof.
  intros out conv Hcode. unfold out in *.
  rewrite getConversation_cases in Hcode |- *.
  destruct (negb _ && negb _); [done|].
  destruct (page _ _ _ db); [|done]. cbn [snd] in *. fold conv.
  split; [done|]. split.
  - rewrite markAsRead_run. unfold Store.unread. cbn [snd chats set_chats].
    induction (chats db) as [|m rest IH]; [done|].
    cbn [fmap list_fmap List.filter]. by rewrite markOne_unread.
  - rewrite !markAsRead_run. cbn [snd]. unfold set_chats.
    cbn [users appointments videoSessions chats]. f_equal.
    rewrite <- list_fmap_compose. apply list_fmap_ext.
    intros i m _. cbn. apply markOne_idem.
Qed.

Lemma conversation_read_marks_like_markAsRead_witness :
  code (fst (run (getConversation (Scenario.at_ 8000) Scenario.asTherapist
                    Scenario.patient 1 50) Scenario.db0)) = 200%nat
  ∧ snd (run (getConversation (Scenario.at_ 8000) Scenario.asTherapist
                Scenario.patient 1 50) Scenario.db0)
    = snd (run (markAsRead (Scenario.at_ 8000) Scenario.asTherapist
                  (Chat.conversationIdOf Scenario.therapist Scenario.patient))
             Scenario.db0).
Proof.
  split; [reflexivity|].
  apply (conversation_read_marks_like_markAsRead (Scenario.at_ 8000)
           (Scenario.at_ 9000) Scenario.asTherapist Scenario.patient 1 50
           Scenario.db0).
  reflexivity.
Defined.

(** X23. The relationship check does not depend on the order of the two
    users; it holds only between two users on record, always when one of
    them is stored as admin, and between two others only for a patient and
    a therapist who share an appointment. *)
Theorem relationship_rules (a b : string) db :
  checkTherapeuticRelationship a b db = checkTherapeuticRelationship b a db
  ∧ (checkTherapeuticRelationship a b db = true →
     ∃ ua ub, users db !! a = Some ua ∧ users db !! b = Some ub
       ∧ (User.role ua = "admin" ∨ User.role ub = "admin"
          ∨ (haveAppointments a b db = true
             ∧ ((User.role ua = "patient" ∧ User.role ub = "therapist")
                ∨ (User.role ua = "therapist" ∧ User.role ub = "patient")))))
  ∧ (∀ ua ub, users db !! a = Some ua → users db !! b = Some ub →
       User.role ua = "admin" ∨ User.role ub = "admin" →
       checkTherapeuticRelationship a b db = true).
Proof.
  split; [apply checkTherapeuticRelationship_sym|]. split.
  - unfold checkTherapeuticRelationship.
    destruct (users db !! a) as [ua|], (users db !! b) as [ub|]; try done.
    intros H. exists ua, ub. split; [done|]. split; [done|].
    destruct (String.eqb (User.role ua) "admin") eqn:Ha;
      [left; by apply eqb_true|].
    destruct (String.eqb (User.role ub) "admin") eqn:Hb;
      [right; left; by apply eqb_true|].
    cbn [orb] in H. right. right.
    destruct (_ || _) eqn:Hroles in H; [|done]. split; [done|].
    apply orb_true_iff in Hroles as [Hr|Hr];
      apply andb_true_iff in Hr as [H1 H2]; apply eqb_true in H1, H2; auto.
  - intros ua ub Hua Hub Hadmin. unfold checkTherapeuticRelationship.
    rewrite Hua, Hub.
    destruct Hadmin as [-> | ->]; [done|]. by rewrite orb_true_r.
Qed.

(** ** Socket handlers *)

Lemma members_disconnect verify clock sid room st :
  Server.members room (fst (Server.handle verify clock sid Server.disconnect st))
  = Server.members room st ∖ {[sid]}.
Proof.
  unfold Server.members. cbn [Server.handle].
  assert (∀ rs : gmap string (gset string),
            default ∅ (((λ r : gset string, r ∖ {[sid]}) <$> rs) !! room)
            = default ∅ (rs !! room) ∖ {[sid]}) as Hrooms.
  { intros rs. rewrite lookup_fmap. destruct (rs !! room); cbn; [done|].
    apply set_eq. intros x. rewrite elem_of_difference.
    split; [intros H; by apply not_elem_of_empty in H | by intros [H _]]. }
  destruct (Server.userIdOf st !! sid) as [uid|]; [destruct (Js.truthy uid)|];
    cbn [fst Server.rooms]; apply Hrooms.
Qed.

(** X24. When a socket that carries an identity disconnects, the registry
    entry of that identity is removed, whichever connection it pointed to,
    so the identity is offline even if another of its connections is still
    open; the socket leaves every room and other identities keep their
    entries. *)
Theorem disconnect_forgets_identity verify clock (sid uid : string) st :
  Server.userIdOf st !! sid = Some uid →
  Js.truthy uid = true →
  let st' := fst (Server.handle verify clock sid Server.disconnect st) in
  Server.lookup uid st' = None
  ∧ Server.userIdOf st' !! sid = None
  ∧ (∀ room, sid ∉ Server.members room st')
  ∧ (∀ other, other ≠ uid → Server.lookup other st' = Server.lookup other st).
Proof.
  intros Hid Huid st'. split; [|split; [|split]].
  - unfold st', Server.lookup. cbn [Server.handle]. rewrite Hid, Huid.
    cbn. apply lookup_delete_eq.
  - unfold st'. cbn [Server.handle]. rewrite Hid, Huid. cbn.
    apply lookup_delete_eq.
  - intros room. unfold st'. rewrite members_disconnect.
    rewrite elem_of_difference, elem_of_singleton. by intros [_ ?].
  - intros other Hne. unfold st', Server.lookup. cbn [Server.handle].
    rewrite Hid, Huid. cbn. by apply lookup_delete_ne.
Qed.

Lemma disconnect_forgets_identity_witness :
  Server.lookup Scenario.patient Scenario.twoTabs = Some "s2"
  ∧ Server.userIdOf Scenario.twoTabs !! "s1" = Some Scenario.patient
  ∧ Server.lookup Scenario.patient
      (fst (Server.handle Scenario.verify 0 "s1" Server.disconnect
              Scenario.twoTabs)) = None.
Proof.
  split; [reflexivity|]. split; [reflexivity|].
  apply (disconnect_forgets_identity Scenario.verify 0 "s1" Scenario.patient
           Scenario.twoTabs).
  - reflexivity.
  - reflexivity.
Defined.

Lemma ioTo_singleton room ev st :
  Server.members room st = {[room]} → Server.ioTo room ev st = [(room, ev)].
Proof. unfold Server.ioTo. intros ->. by rewrite elements_singleton. Qed.

(** X25. The chat relays do not change the server state. When the receiver
    is registered and the registered socket is connected and alone in the
    room of its own id, a relayed message, a typing start and a typing stop
    each produce exactly one emit, to that socket, carrying the sender's
    identity. *)
Theorem chat_relay_reaches_registered_socket
    verify clock (sid receiver rs body conv : string) st :
  Server.lookup receiver st = Some rs →
  Server.members rs st = {[rs]} →
  Server.handle verify clock sid (Server.send_message receiver body conv) st
  = (st, [(rs, Server.new_message (Server.userIdOf st !! sid) body conv
                 clock)])
  ∧ Server.handle verify clock sid (Server.typing_start receiver conv) st
    = (st, [(rs, Server.user_typing (Server.userIdOf st !! sid) conv)])
  ∧ Server.handle verify clock sid (Server.typing_stop receiver conv) st
    = (st, [(rs, Server.user_stopped_typing (Server.userIdOf st !! sid)
                   conv)]).
Proof.
  unfold Server.lookup. intros Hreg Hroom. cbn [Server.handle].
  rewrite Hreg. by rewrite !(ioTo_singleton rs _ st Hroom).
Qed.

Lemma chat_relay_reaches_registered_socket_witness :
  Server.lookup Scenario.patient Scenario.twoTabs = Some "s2"
  ∧ Server.handle Scenario.verify 42 "t1"
      (Server.send_message Scenario.patient "hello" "c") Scenario.twoTabs
    = (Scenario.twoTabs, [("s2", Server.new_message None "hello" "c" 42)]).
Proof.
  split; [reflexivity|].
  apply (chat_relay_reaches_registered_socket Scenario.verify 42 "t1"
           Scenario.patient "s2" "hello" "c" Scenario.twoTabs).
  - reflexivity.
  - by vm_compute.
Defined.

(** X26. Leaving a video room removes the socket from that room only:
    the other members, the other rooms, the registry and the socket
    identities stay as they were, and exactly the remaining members are
    told that the socket's identity left. *)
Theorem leave_video_session_effect verify clock (sid room : string) st :
  let out := Server.handle verify clock sid
               (Server.leave_video_session room) st in
  Server.members room (fst out) = Server.members room st ∖ {[sid]}
  ∧ (∀ room', room' ≠ room →
       Server.members room' (fst out) = Server.members room' st)
  ∧ Server.activeUsers (fst out) = Server.activeUsers st
  ∧ Server.userIdOf (fst out) = Server.userIdOf st
  ∧ (∀ target ev, (target, ev) ∈ snd out
       ↔ ev = Server.user_left (Server.userIdOf st !! sid)
         ∧ target ∈ Server.members room st ∧ target ≠ sid).
Proof.
  intros out. unfold out. cbn [Server.handle fst snd].
  assert (∀ st0, Server.members room
            (Server.mk (Server.activeUsers st0)
               (<[room := Server.members room st0 ∖ {[sid]}]>
                  (Server.rooms st0))
               (Server.userIdOf st0))
          = Server.members room st0 ∖ {[sid]}) as Hroom.
  { intros st0. unfold Server.members at 1. cbn [Server.rooms].
    by rewrite lookup_insert_eq. }
  split; [apply Hroom|]. split; [|split; [done|split; [done|]]].
  - intros room' Hne. unfold Server.members. cbn [Server.rooms].
    by rewrite lookup_insert_ne.
  - intros target ev. rewrite elem_of_toRoom, Hroom.
    rewrite elem_of_difference, elem_of_singleton. split.
    + by intros (-> & [Hin _] & Hne).
    + by intros (-> & Hin & Hne).
Qed.

Lemma handle_registry_origin verify clock sid' ev st (uid sid : string) :
  Server.activeUsers (fst (Server.handle verify clock sid' ev st)) !! uid
  = Some sid →
  Server.activeUsers st !! uid = Some sid
  ∨ (sid' = sid ∧ ∃ token, ev = Server.authenticate token
                            ∧ verify token = Some uid).
Proof.
  destruct ev; cbn [Server.handle]; try (cbn; by left).
  - destruct (verify token) as [userId|] eqn:Hv; cbn; [|by left].
    destruct (decide (userId = uid)) as [->|Hne].
    + rewrite lookup_insert_eq. intros [= ->]. right.
      split; [done|]. by exists token.
    + rewrite lookup_insert_ne by done. by left.
  - destruct (Server.activeUsers st !! receiverId); cbn; by left.
  - destruct (Server.activeUsers st !! receiverId); cbn; by left.
  - destruct (Server.activeUsers st !! receiverId); cbn; by left.
  - destruct (Server.userIdOf st !! sid') as [userId|]; [|cbn; by left].
    destruct (Js.truthy userId); cbn; [|by left].
    intros Hin. left.
    destruct (decide (userId = uid)) as [->|Hne].
    + by rewrite lookup_delete_eq in Hin.
    + by rewrite lookup_delete_ne in Hin.
Qed.

Lemma handleAll_registry_origin verify clock evs st (uid sid : string) :
  Server.activeUsers (Server.handleAll verify clock evs st) !! uid = Some sid →
  Server.activeUsers st !! uid = Some sid
  ∨ ∃ token, (sid, Server.authenticate token) ∈ evs
             ∧ verify token = Some uid.
Proof.
  revert st. induction evs as [|[sid' ev] evs IH]; intros st; [by left|].
  cbn [Server.handleAll]. intros Hin.
  destruct (IH _ Hin) as [Hprev|(token & Hev & Hv)].
  - destruct (handle_registry_origin _ _ _ _ _ _ _ Hprev)
      as [Hst|(-> & token & -> & Hv)]; [by left|].
    right. exists token. split; [left | done].
  - right. exists token. split; [by right | done].
Qed.

(** X27. Starting from the empty server, an identity is registered to a
    socket only if that socket sent an [authenticate] event whose token
    verified to that identity: no other event, and no failed
    authentication, puts an entry in the registry. *)
Theorem registry_entries_come_from_verified_tokens
    verify clock evs (uid sid : string) :
  Server.lookup uid (Server.handleAll verify clock evs Server.init)
  = Some sid →
  ∃ token, (sid, Server.authenticate token) ∈ evs ∧ verify token = Some uid.
Proof.
  unfold Server.lookup. intros Hin.
  destruct (handleAll_registry_origin _ _ _ _ _ _ Hin) as [Hinit|Hev];
    [|done].
  cbn in Hinit. by rewrite lookup_empty in Hinit.
Qed.

Lemma registry_entries_come_from_verified_tokens_witness :
  ∃ token,
    ("s2", Server.authenticate token)
      ∈ [("s1", Server.connection);
         ("s1", Server.authenticate Scenario.patient);
         ("s2", Server.connection);
         ("s2", Server.authenticate Scenario.patient)]
    ∧ Scenario.verify token = Some Scenario.patient.
Proof.
  apply (registry_entries_come_from_verified_tokens Scenario.verify 0
           [("s1", Server.connection);
            ("s1", Server.authenticate Scenario.patient);
            ("s2", Server.connection);
            ("s2", Server.authenticate Scenario.patient)]
           Scenario.patient "s2").
  reflexivity.
Defined.
